(* ===== verification/_CoqProject ===== *)
-Q . S2P
Prelude.v
JsString.v
JsValue.v
Json.v
Utf8.v
Payload.v
Effects.v
Handler.v
Contract.v
