(* ===== verification/Prelude.v ===== *)
(** * A verification development of [src/api/log.js]

    ** The program

    The repository is one serverless HTTP function, the default export
    [handler(req, res)] of [src/api/log.js].  It has no state of its own
    between requests; one request goes through these stages:
    - the method check (line 6), outside the [try] block: anything but
      ["POST"] gets 405;
    - inside [try] (lines 10-83): the destructuring of [req.body] (line
      11), the truthiness check of [username] and [password] (lines
      14-16, 400 when one is falsy), the object literal [discordPayload]
      whose fields are template literals (lines 19-47), the read of
      [process.env.DISCORD_WEBHOOK_URL] and its truthiness check (lines
      52-59, 500 when falsy), the outbound [await fetch(url, init)] whose
      body is [JSON.stringify(discordPayload)] (lines 61-67), the
      [response.ok] check with [await response.text()] and
      [console.error] on failure (lines 71-78, 500), and the 200 (line 82);
    - the [catch] block (lines 84-88): any exception thrown in the [try]
      block is logged and answered with 500.
    It interacts with three collaborators: the platform (which supplies
    [req] and sends what [res.status(..).json(..)] is given), the
    process environment, and the webhook endpoint that [fetch] reaches.

    ** The files (library root: this directory)

    - [Prelude] (this file): the scope [js_scope], the hint databases
      [jsdb] ([auto]) and [jsrw] ([autorewrite]), the tactics [invc],
      [list_elem], [zcase], ECMAScript completions ([Normal]/[Abrupt])
      with [let!], the infix relation and [intercalate] with their lemmas.
    - [JsString] (Module [JsString]): strings as lists of UTF-16 code
      units (Z, well-formed when in [0, 65536)), the source's literals
      ([lit], the emoji as surrogate pairs), [===] ([strict_eqb]) and
      Number::toString on integral numbers ([number_to_string]).
    - [JsValue] (Module [JsValue]): [jsval], the JSON values and
      [undefined] that [req.body] and its properties can be; [exn];
      ToBoolean ([to_boolean], the [!x] of lines 14 and 55); ToString
      ([to_string], every template literal, with OrdinaryToPrimitive on
      objects and Array.prototype.join on arrays); GetV and the
      destructuring of line 11 ([destructure]).
    - [Json] (Module [Json]): JSON.stringify of line 66 ([serialize],
      [serialize_members], [quote], [quote_units], [escape_unit],
      [unicode_escape]; ES2019 well-formed stringify, lone surrogates
      escaped), and a reader of JSON string literals ([read_string]) for
      the round trip.
    - [Utf8] (Module [Utf8]): what [fetch] does with the string body of
      lines 61-67: the USVString conversion ([code_points], lone
      surrogates become U+FFFD) and the UTF-8 encoder of the Encoding
      standard ([utf8_encode], [encode_point], [continuation], written
      with shifts and masks); a strict decoder ([utf8_decode]) and the
      UTF-16 re-encoding ([from_code_points]) stand for the receiver.
    - [Payload] (Module [Payload]): the object literal of lines 19-47
      ([fields], [embed], [payload_object]) and its evaluation
      ([discord_payload]), template literals run in source order.
    - [Effects] (Module [Effects]): the handler's effects as a finite
      tree [io] of events with continuations ([Fetch], [ReadText],
      [ConsoleError], [Respond], [Throw]); [bind] is sequencing and
      [try_catch] is [try]/[catch]; the class [Sink] is the interface of
      the webhook endpoint (what [fetch] and [text()] answer); [run]
      executes a tree against a sink and yields the trace of events and
      the completion; [run_bind] and [run_try_catch] are its equations.
    - [Handler] (Module [Handler]): [handler] composed as in the source
      from [handler_try], [forward], [after_fetch] and [handler_catch];
      the request ([request]: method and the completion of [req.body]),
      the configuration ([option jsstring]); the spec's scenario and
      concrete endpoints used by the witnesses.
    - [Contract] (Module [Contract]): the spec's contract (spec.md
      section 4.1 and its error taxonomy): [outcome], [status_of],
      [public_message], the allowed traces [shape]; the decision the code
      takes ([handler_outcome]) and the one the spec describes in its own
      order ([spec_outcome]); the provenance and the bytes of the
      outbound call.

    ** The theorems, by group

    - Branches of the handler ([Handler]): 405 for a non-POST method,
      400 for falsy credentials, the configuration error, the success
      path (one outbound call whose JSON body contains the username and
      password fields verbatim, then 200), the non-2xx path, and the
      exception paths (body getter, template literal, fetch, text()),
      each with the exact trace of events.
    - Safety and refinement ([Contract]): every run completes (no
      exception escapes); exactly one response, last; at most one
      outbound call and none before validation and configuration; the
      response does not depend on the text of a downstream error; the
      code refines the spec's decision whenever the webhook is
      configured, and differs from it in exactly one case (payload
      failure with no webhook), shown on a concrete request; an
      outbound call goes only to the configured URL, after validation,
      with the JSON text of the payload built from that request's own
      fields ([handler_fetch_provenance]).
    - Values and serialization ([JsValue], [Payload], [Json]): ToString
      throws exactly on objects with an own [toString] key (also inside
      arrays); the payload builds exactly when the three converted
      values are convertible; absent [userAgent]/[timestamp] give
      ["```undefined```"] and a field with no [value] member; reading
      back QuoteJSONString's output gives the original code units.
    - Bytes on the wire ([Utf8], [Contract]): the UTF-8 encoding of a
      well-formed string with no lone surrogate decodes back to it;
      JSON.stringify of a well-formed value emits no lone surrogate
      (they are escaped), so its bytes decode back to the text; hence
      for a well-formed request body the webhook receives the JSON text
      of the payload unchanged ([handler_outbound_bytes]).  ToString
      and the destructuring keep values well formed.

    ** Fuel, bounds, termination

    No definition needs fuel: [io] trees are finite (an inductive type)
    and [run] is structural on them, as are [to_string], [serialize]
    and [read_body] on values and strings (the reader consumes one, two
    or six code units per step, still structurally).  Code units are
    kept in [0, 65536) by [JsString.wf_string], the hypothesis of the
    round trip; numbers are integral Numbers held as their value,
    printed by Number::toString in decimal below 10^21 and in exponent
    notation from there on, with the integer's own digits (the shortest
    round-trip digits for every integer up to 2^53).  Fractional and
    non-finite numbers are not represented.

    ** Not modelled

    The platform (routing, body parsing other than its outcome, the
    HTTP encoding of [res.json]); the webhook service, of which only the
    answers are modelled, any answer being allowed by [Sink]; a promise
    that never settles (the platform's timeout); the text [console.error]
    prints; the HTTP transport of the outbound request.  Planned: a full
    JSON reader with [parse (stringify v)] equal to [v] without its
    [undefined] members, and the decoding of the embed fields back to
    the credentials on the receiving side. *)

From Stdlib Require Import ZArith Lia.
From stdpp Require Import base list decidable.

Declare Scope js_scope.
Delimit Scope js_scope with js.

(** Hint databases of the development: [jsdb] for [auto], [jsrw] for
    [autorewrite]. *)
Create HintDb jsdb.
Create Rewrite HintDb jsrw.

Ltac invc H := inversion H; subst; clear H.

(** Membership in a list written out element by element. *)
Ltac list_elem :=
  repeat first [apply elem_of_cons; left; reflexivity | apply elem_of_cons; right].

(** Case analysis on every boolean comparison of integers in the goal. *)
Ltac zcase :=
  repeat match goal with
  | |- context [Z.eqb ?a ?b] => destruct (Z.eqb_spec a b)
  | |- context [Z.ltb ?a ?b] => destruct (Z.ltb_spec a b)
  | |- context [Z.leb ?a ?b] => destruct (Z.leb_spec a b)
  end.

(** Proves a decidable proposition about closed terms by evaluation. *)
Ltac by_decide := apply (bool_decide_unpack _); vm_compute; exact I.

(** Linear arithmetic with division and remainder by constants. *)
Ltac zlia := Z.div_mod_to_equations; lia.

(** Rewrites every boolean comparison of integers in the goal that the
    hypotheses decide. *)
Ltac zsimpl :=
  repeat match goal with
  | |- context [Z.leb ?a ?b] =>
      first [rewrite (proj2 (Z.leb_le a b)) by zlia | rewrite (proj2 (Z.leb_gt a b)) by zlia]
  | |- context [Z.ltb ?a ?b] =>
      first [rewrite (proj2 (Z.ltb_lt a b)) by zlia | rewrite (proj2 (Z.ltb_ge a b)) by zlia]
  | |- context [Z.eqb ?a ?b] =>
      first [rewrite (proj2 (Z.eqb_eq a b)) by zlia | rewrite (proj2 (Z.eqb_neq a b)) by zlia]
  end; cbn [andb orb negb].

(** ** Completions

    An ECMAScript evaluation either completes normally with a value or
    abruptly with a thrown exception. *)
Inductive completion (E A : Type) : Type :=
| Normal (a : A)
| Abrupt (e : E).
Arguments Normal {E A} a.
Arguments Abrupt {E A} e.

Definition cbind {E A B} (c : completion E A) (k : A -> completion E B)
    : completion E B :=
  match c with
  | Normal a => k a
  | Abrupt e => Abrupt e
  end.

Notation "'let!' x ':=' c 'in' k" := (cbind c (fun x => k))
  (at level 100, x name, c at next level, right associativity) : js_scope.

(** [s] occurs as a contiguous part of [l]. *)
Definition infix {A} (s l : list A) : Prop := exists p q, l = p ++ s ++ q.

(** The parts of a list joined with a separator between consecutive
    parts, as [Array.prototype.join] and the JSON serializers build it. *)
Fixpoint intercalate {A} (sep : list A) (ls : list (list A)) : list A :=
  match ls with
  | [] => []
  | [x] => x
  | x :: rest => x ++ sep ++ intercalate sep rest
  end.

Lemma cbind_normal {E A B} (a : A) (k : A -> completion E B) :
  cbind (Normal a) k = k a.
Proof. reflexivity. Qed.

Lemma cbind_abrupt {E A B} (e : E) (k : A -> completion E B) :
  cbind (Abrupt e) k = Abrupt e.
Proof. reflexivity. Qed.

#[export] Hint Rewrite @cbind_normal @cbind_abrupt : jsrw.

(** ** Induction over lists one or two elements at a time

    The shape of the recursions that read UTF-16 code units, where a
    surrogate pair is consumed in one step. *)
Lemma list_ind2 {A} (P : list A -> Prop) :
  P [] -> (forall x, P [x]) ->
  (forall x y l, P l -> P (y :: l) -> P (x :: y :: l)) ->
  forall l, P l.
Proof.
  intros H0 H1 H2 l.
  assert (P l /\ forall x, P (x :: l)) as [Hl _]; [|exact Hl].
  induction l as [|y l [IH1 IH2]]; split; auto.
Qed.

(** ** Lemmas on the infix relation and on [intercalate] *)


Lemma infix_refl {A} (l : list A) : infix l l.
Proof. exists [], []. by rewrite app_nil_r. Qed.

Lemma infix_app_l {A} (s l r : list A) : infix s l -> infix s (r ++ l).
Proof. intros (p & q & ->). exists (r ++ p), q. by rewrite app_assoc. Qed.

Lemma infix_app_r {A} (s l r : list A) : infix s l -> infix s (l ++ r).
Proof. intros (p & q & ->). exists p, (q ++ r). by rewrite <- !app_assoc. Qed.

Lemma infix_trans {A} (s m l : list A) : infix s m -> infix m l -> infix s l.
Proof.
  intros (p1 & q1 & ->) (p2 & q2 & ->).
  exists (p2 ++ p1), (q1 ++ q2). by rewrite <- !app_assoc.
Qed.

Lemma infix_cons {A} (s l : list A) (x : A) : infix s l -> infix s (x :: l).
Proof. apply (infix_app_l s l [x]). Qed.

#[export] Hint Resolve infix_refl infix_app_l infix_app_r infix_cons : jsdb.


Lemma intercalate_cons {A} (sep x : list A) ls :
  ls <> [] -> intercalate sep (x :: ls) = x ++ sep ++ intercalate sep ls.
Proof. destruct ls; [congruence | reflexivity]. Qed.

Lemma infix_intercalate {A} (sep s : list A) ls :
  s ∈ ls -> infix s (intercalate sep ls).
Proof.
  induction ls as [|x ls IH]; intros Hin; [by apply elem_of_nil in Hin|].
  destruct ls as [|y ls].
  - apply list_elem_of_singleton in Hin as ->. apply infix_refl.
  - rewrite intercalate_cons by discriminate.
    apply elem_of_cons in Hin as [->|Hin].
    + apply infix_app_r, infix_refl.
    + apply infix_app_l, infix_app_l, IH, Hin.
Qed.

(** A property of every element survives joining with a separator. *)
Lemma Forall_intercalate {A} (P : A -> Prop) (sep : list A) ls :
  Forall P sep -> Forall (Forall P) ls -> Forall P (intercalate sep ls).
Proof.
  intros Hsep. induction 1 as [|x ls Hx Hls IH]; [constructor|].
  destruct ls as [|y ls]; [exact Hx|].
  rewrite intercalate_cons by discriminate.
  apply Forall_app; split; [exact Hx|]. apply Forall_app; auto.
Qed.
