(* ===== verification/JsString.v ===== *)
(** ECMAScript strings as the handler manipulates them: sequences of
    UTF-16 code units, each an integer in [0, 65536).  This file holds
    the string literals of [src/api/log.js] (the ASCII ones and the four
    emoji of the payload, written as their surrogate pairs), strict
    equality [===] on strings, and Number::toString on the integral
    numbers a JSON request body can carry. *)

From Stdlib Require Import ZArith Lia String Ascii DecimalString.
From stdpp Require Import base list decidable.
From S2P Require Import Prelude.

Abbreviation jsstring := (list Z).

Module JsString.

Local Open Scope Z_scope.

(** A code unit is a 16-bit unsigned integer. *)
Definition wf_unit (c : Z) : Prop := 0 <= c < 65536.

#[export] Instance wf_unit_dec c : Decision (wf_unit c).
Proof. unfold wf_unit. apply _. Defined.

Definition wf_string (s : jsstring) : Prop := Forall wf_unit s.

#[export] Instance wf_string_dec s : Decision (wf_string s).
Proof. unfold wf_string. apply _. Defined.

(** The code unit of an ASCII character, and an ASCII string literal of
    the source as a JS string. *)
Definition unit_of_ascii (a : ascii) : Z := Z.of_N (N_of_ascii a).

Definition lit (s : string) : jsstring := map unit_of_ascii (list_ascii_of_string s).

(** The emoji of the payload's strings (lines 20, 26, 31, 36, 41), as
    UTF-16 surrogate pairs. *)
Definition police_light : jsstring := [0xD83D; 0xDEA8]%Z.   (* U+1F6A8 *)
Definition bust : jsstring := [0xD83D; 0xDC64]%Z.           (* U+1F464 *)
Definition key : jsstring := [0xD83D; 0xDD11]%Z.            (* U+1F511 *)
Definition clock_one : jsstring := [0xD83D; 0xDD50]%Z.      (* U+1F550 *)
Definition globe : jsstring := [0xD83C; 0xDF10]%Z.          (* U+1F310 *)

Definition is_high_surrogate (c : Z) : bool := (0xD800 <=? c) && (c <=? 0xDBFF).
Definition is_low_surrogate (c : Z) : bool := (0xDC00 <=? c) && (c <=? 0xDFFF).

(** [a === b] on two strings: same length, same code units. *)
Definition strict_eqb (a b : jsstring) : bool := bool_decide (a = b).

(** The digits of a decimal numeral without its trailing zeros. *)
Fixpoint drop_zeros (l : list ascii) : list ascii :=
  match l with
  | "0"%char :: l => drop_zeros l
  | _ => l
  end.

Definition significant_digits (ds : string) : string :=
  string_of_list_ascii (rev (drop_zeros (rev (list_ascii_of_string ds)))).

(** Number::toString (ECMA-262 6.1.6.1.20) on an integral Number [n]:
    with [k] significant digits and [n] written with [e+1] digits, the
    plain digits when [|n| < 10^21], otherwise the first digit, a point
    and the other [k-1] significant digits when [k > 1], then ["e+"] and
    [e].  The digits are those of the integer itself, which are the
    shortest round-trip digits of the Number for every integer JSON.parse
    yields exactly (|n| <= 2^53) and for the multiples of powers of ten
    with few significant digits. *)
Definition number_string (n : Z) : string :=
  let ds := NilZero.string_of_uint (N.to_uint (Z.abs_N n)) in
  let sign := if n <? 0 then "-"%string else EmptyString in
  if Z.abs n <? 10 ^ 21 then (sign ++ ds)%string
  else
    let sig := significant_digits ds in
    (sign ++ substring 0 1 sig
     ++ (if (1 <? String.length sig)%nat
         then "." ++ substring 1 (String.length sig - 1) sig
         else EmptyString)
     ++ "e+" ++ NilZero.string_of_uint (Nat.to_uint (String.length ds - 1)))%string.

Definition number_to_string (n : Z) : jsstring := lit (number_string n).

(** ** Lemmas *)

Lemma strict_eqb_spec a b : strict_eqb a b = true <-> a = b.
Proof. unfold strict_eqb. apply bool_decide_eq_true. Qed.

Lemma unit_of_ascii_bound a : 0 <= unit_of_ascii a < 256.
Proof.
  unfold unit_of_ascii. pose proof (N_ascii_bounded a).
  split; [lia|]. apply N2Z.inj_lt in H. exact H.
Qed.

Lemma wf_lit s : wf_string (lit s).
Proof.
  unfold wf_string, lit. apply Forall_forall. intros c Hc.
  apply in_map_iff in Hc as (a & <- & _).
  pose proof (unit_of_ascii_bound a). unfold wf_unit. lia.
Qed.

Lemma wf_string_app s t : wf_string s -> wf_string t -> wf_string (s ++ t).
Proof. apply Forall_app_2. Qed.

Lemma wf_number_to_string n : wf_string (number_to_string n).
Proof. apply wf_lit. Qed.

#[export] Hint Resolve wf_lit wf_string_app wf_number_to_string : jsdb.

End JsString.
