(* ===== verification/JsValue.v ===== *)
(** The values the handler reads from [req.body] and the abstract
    operations of ECMAScript it applies to them:
    - [jsval]: a JSON value (what Vercel's body parser produces) or
      [undefined] (what a missing property reads as);
    - [to_boolean]: ToBoolean, used by [!username] (line 14) and
      [!DISCORD_WEBHOOK_URL] (line 55);
    - [to_string]: ToString, used by every template literal
      [`...${x}...`] (lines 27, 32, 42); on an object it goes through
      OrdinaryToPrimitive with hint string, on an array through
      Array.prototype.join;
    - [destructure]: [const { username, password, userAgent, timestamp }
      = req.body] (line 11). *)

From Stdlib Require Import ZArith Lia String.
From stdpp Require Import base list decidable.
From S2P Require Import Prelude JsString.

Module JsValue.
Import JsString.
Local Open Scope Z_scope.
Local Open Scope js_scope.

(** Exceptions: the language's own [TypeError]s, and the exceptions a
    host object throws (the body getter, [fetch], [response.text()]),
    which carry a name and a message. *)
Inductive exn : Type :=
| TypeError (msg : jsstring)
| HostError (name msg : jsstring).

Abbreviation result := (completion exn).

(** The values [req.body] and its properties can be: what JSON.parse
    yields, and [undefined].  A number is an integral Number, held as
    its value (no fraction, no NaN or infinity; see
    [JsString.number_string] for its digits).  An object is the list of
    its own data properties in the order of [[OwnPropertyKeys]], each key
    once: for an object JSON.parse builds, array-index keys come first in
    ascending order, then the other keys in the order of their first
    occurrence in the text, each with the value of its last occurrence.
    [get_own] and [serialize] read the list in that order. *)
Local Unset Elimination Schemes.
Inductive jsval : Type :=
| JUndefined
| JNull
| JBool (b : bool)
| JNumber (n : Z)
| JString (s : jsstring)
| JArray (elems : list jsval)
| JObject (props : list (jsstring * jsval)).
Local Set Elimination Schemes.

(** Induction principle with hypotheses on the children of arrays and
    objects. *)
Section jsval_ind.
Variable P : jsval -> Prop.
Hypothesis Hundef : P JUndefined.
Hypothesis Hnull : P JNull.
Hypothesis Hbool : forall b, P (JBool b).
Hypothesis Hnum : forall n, P (JNumber n).
Hypothesis Hstr : forall s, P (JString s).
Hypothesis Harr : forall es, Forall P es -> P (JArray es).
Hypothesis Hobj : forall ps, Forall (fun p => P (snd p)) ps -> P (JObject ps).

Fixpoint jsval_ind' (v : jsval) : P v :=
  match v with
  | JUndefined => Hundef
  | JNull => Hnull
  | JBool b => Hbool b
  | JNumber n => Hnum n
  | JString s => Hstr s
  | JArray es =>
      Harr es ((fix go (l : list jsval) : Forall P l :=
                  match l with
                  | [] => Forall_nil_2 _
                  | e :: l => Forall_cons_2 _ _ _ (jsval_ind' e) (go l)
                  end) es)
  | JObject ps =>
      Hobj ps ((fix go (l : list (jsstring * jsval)) : Forall (fun p => P (snd p)) l :=
                  match l with
                  | [] => Forall_nil_2 _
                  | p :: l => Forall_cons_2 _ _ _ (jsval_ind' (snd p)) (go l)
                  end) ps)
  end.
End jsval_ind.

(** [[GetOwnProperty]] of a data property: the value of the key in the
    object's property list (where each key occurs once). *)
Fixpoint get_own (ps : list (jsstring * jsval)) (k : jsstring) : option jsval :=
  match ps with
  | [] => None
  | (k', v) :: ps => if bool_decide (k = k') then Some v else get_own ps k
  end.

Definition has_own (ps : list (jsstring * jsval)) (k : jsstring) : bool :=
  if get_own ps k is Some _ then true else false.

(** ToBoolean.  JSON never yields NaN; [-0] and [0] are the integer 0. *)
Definition to_boolean (v : jsval) : bool :=
  match v with
  | JUndefined | JNull => false
  | JBool b => b
  | JNumber n => negb (n =? 0)
  | JString s => negb (bool_decide (s = []))
  | JArray _ | JObject _ => true
  end.

(** OrdinaryToPrimitive(O, string) on a plain object: [O.toString] is
    tried first; an own [toString] data property from JSON is never
    callable, so it is skipped, and then [valueOf] (own and not
    callable, or Object.prototype.valueOf returning [O] itself) gives
    no primitive either: a TypeError.  Without an own [toString],
    Object.prototype.toString gives ["[object Object]"]. *)
Definition object_to_string (ps : list (jsstring * jsval)) : result jsstring :=
  if has_own ps (lit "toString")
  then Abrupt (TypeError (lit "Cannot convert object to primitive value"))
  else Normal (lit "[object Object]").

(** ToString.  On an array: Array.prototype.toString calls
    Array.prototype.join with separator [","], which renders
    [undefined] and [null] elements as the empty string and converts
    the others with ToString, left to right. *)
Fixpoint to_string (v : jsval) : result jsstring :=
  match v with
  | JUndefined => Normal (lit "undefined")
  | JNull => Normal (lit "null")
  | JBool true => Normal (lit "true")
  | JBool false => Normal (lit "false")
  | JNumber n => Normal (number_to_string n)
  | JString s => Normal s
  | JArray es =>
      let! parts :=
        (fix go (l : list jsval) : result (list jsstring) :=
           match l with
           | [] => Normal []
           | e :: l =>
               let! s := (match e with
                          | JUndefined | JNull => Normal []
                          | _ => to_string e
                          end) in
               let! r := go l in
               Normal (s :: r)
           end) es in
      Normal (intercalate (lit ",") parts)
  | JObject ps => object_to_string ps
  end.

(** GetV(V, k) for the keys of line 11.  None of them is a property of
    Object.prototype, Array.prototype, String.prototype,
    Number.prototype or Boolean.prototype, nor ["length"] or an array
    index, so only an own property of an object is found. *)
Definition get_v (v : jsval) (k : jsstring) : jsval :=
  match v with
  | JObject ps => default JUndefined (get_own ps k)
  | _ => JUndefined
  end.

(** [const { username, password, userAgent, timestamp } = req.body]:
    RequireObjectCoercible on the value, then four GetV in order. *)
Definition destructure (body : jsval) : result (jsval * jsval * jsval * jsval) :=
  match body with
  | JUndefined =>
      Abrupt (TypeError (lit "Cannot destructure property 'username' of 'req.body' as it is undefined."))
  | JNull =>
      Abrupt (TypeError (lit "Cannot destructure property 'username' of 'req.body' as it is null."))
  | _ =>
      Normal (get_v body (lit "username"), get_v body (lit "password"),
              get_v body (lit "userAgent"), get_v body (lit "timestamp"))
  end.

(** A value whose ToString completes normally: no object with an own
    [toString] property is met, at the top or inside arrays. *)
Fixpoint convertible (v : jsval) : bool :=
  match v with
  | JArray es =>
      (fix go (l : list jsval) : bool :=
         match l with
         | [] => true
         | e :: l => convertible e && go l
         end) es
  | JObject ps => negb (has_own ps (lit "toString"))
  | _ => true
  end.

(** Every string of a value, keys included, satisfies [R]. *)
Local Unset Elimination Schemes.
Inductive all_strings (R : jsstring -> Prop) : jsval -> Prop :=
| all_undefined : all_strings R JUndefined
| all_null : all_strings R JNull
| all_bool b : all_strings R (JBool b)
| all_number n : all_strings R (JNumber n)
| all_string s : R s -> all_strings R (JString s)
| all_array es : Forall (all_strings R) es -> all_strings R (JArray es)
| all_object ps :
    Forall (fun p => R (fst p) /\ all_strings R (snd p)) ps -> all_strings R (JObject ps).
Local Set Elimination Schemes.

(** A value whose strings are all made of valid code units: what
    JSON.parse yields from a body. *)
Definition wf_value (v : jsval) : Prop := all_strings wf_string v.

(** ** Lemmas *)

Lemma all_strings_true v : all_strings (fun _ => True) v.
Proof.
  induction v as [| | | | | es IH | ps IH] using jsval_ind'; constructor; auto.
  eapply Forall_impl; [|exact IH]. simpl. auto.
Qed.


Lemma object_to_string_normal ps :
  (exists s, object_to_string ps = Normal s) <-> has_own ps (lit "toString") = false.
Proof.
  unfold object_to_string. destruct (has_own _ _); split.
  - intros [s Hs]; discriminate.
  - discriminate.
  - reflexivity.
  - intros _; eauto.
Qed.

Lemma to_string_elements_normal es :
  Forall (fun e => (exists s, to_string e = Normal s) <-> convertible e = true) es ->
  (exists parts,
     (fix go (l : list jsval) : result (list jsstring) :=
        match l with
        | [] => Normal []
        | e :: l =>
            let! s := (match e with
                       | JUndefined | JNull => Normal []
                       | _ => to_string e
                       end) in
            let! r := go l in
            Normal (s :: r)
        end) es = Normal parts)
  <-> (fix go (l : list jsval) : bool :=
         match l with
         | [] => true
         | e :: l => convertible e && go l
         end) es = true.
Proof.
  induction 1 as [|e es He _ IH]; [split; eauto|].
  rewrite andb_true_iff, <- IH.
  assert (Hel : (exists s, match e with
                           | JUndefined | JNull => Normal []
                           | _ => to_string e
                           end = Normal s) <-> convertible e = true).
  { destruct e; try (split; eauto; fail); exact He. }
  rewrite <- Hel. clear He Hel IH.
  destruct (match e with JUndefined | JNull => _ | _ => _ end) as [s|];
    simpl; [|split; [intros [? ?]; discriminate | intros [[? ?] _]; discriminate]].
  split.
  - intros [parts Hp]. destruct (_ es) as [r|] eqn:E; simpl in Hp; [|discriminate].
    eauto.
  - intros [_ [r ->]]. simpl. eauto.
Qed.

Lemma cbind_normal_ex {A B} (c : result A) (f : A -> B) :
  (exists b, cbind c (fun a => Normal (f a)) = Normal b) <-> exists a, c = Normal a.
Proof. destruct c; simpl; split; intros [? H]; try discriminate; eauto. Qed.

(** ToString of a request-body value throws exactly on the values that
    are not [convertible]. *)
Lemma to_string_normal_iff v :
  (exists s, to_string v = Normal s) <-> convertible v = true.
Proof.
  induction v as [| | [] | | | es IH | ps _] using jsval_ind';
    try (split; simpl; eauto; fail).
  - simpl. rewrite cbind_normal_ex. apply to_string_elements_normal, IH.
  - simpl. rewrite negb_true_iff. apply object_to_string_normal.
Qed.

(** ToString of a value whose strings are well formed gives a well
    formed string: its result is made of the value's strings, literals
    and digits. *)
Lemma to_string_elements_wf es parts :
  Forall (fun e => forall s, wf_value e -> to_string e = Normal s -> wf_string s) es ->
  Forall wf_value es ->
  (fix go (l : list jsval) : result (list jsstring) :=
     match l with
     | [] => Normal []
     | e :: l =>
         let! s := (match e with
                    | JUndefined | JNull => Normal []
                    | _ => to_string e
                    end) in
         let! r := go l in
         Normal (s :: r)
     end) es = Normal parts ->
  Forall wf_string parts.
Proof.
  intros IH; revert parts; induction IH as [|e es He _ IHes];
    intros parts Hwf Hgo; [invc Hgo; constructor|].
  invc Hwf.
  destruct (match e with JUndefined | JNull => _ | _ => _ end) as [s|] eqn:Es;
    simpl in Hgo; [|discriminate].
  destruct (_ es) as [r|] eqn:Er; simpl in Hgo; [|discriminate]. invc Hgo.
  constructor; [|by apply IHes].
  destruct e; invc Es; try apply wf_lit; eauto; constructor.
Qed.

Lemma to_string_wf v s : wf_value v -> to_string v = Normal s -> wf_string s.
Proof.
  revert s.
  induction v as [| | [] | | str | es IH | ps _] using jsval_ind';
    intros s Hv Hs; simpl in Hs;
    try (invc Hs; first [apply wf_lit | apply wf_number_to_string | by invc Hv]).
  - unfold cbind in Hs at 1.
    match type of Hs with
    | context [match ?c with Normal _ => _ | Abrupt _ => _ end] =>
        destruct c as [parts|] eqn:E
    end; [|discriminate]. invc Hs. invc Hv. apply Forall_intercalate; [apply wf_lit|].
    refine (to_string_elements_wf _ _ IH _ E).
    match goal with H : Forall (all_strings _) _ |- _ => exact H end.
  - unfold object_to_string in Hs. destruct (has_own _ _); invc Hs. apply wf_lit.
Qed.

(** The four destructured values of a well-formed body are well formed. *)
Lemma get_v_wf v k : wf_value v -> wf_value (get_v v k).
Proof.
  intros Hv. destruct v as [| | | | | |ps]; try constructor. invc Hv.
  induction ps as [|[k' w] ps IH]; [constructor|]; simpl.
  match goal with H : Forall _ _ |- _ => invc H end.
  case_bool_decide; [tauto | auto].
Qed.

Lemma destructure_wf body u p ua ts :
  wf_value body -> destructure body = Normal (u, p, ua, ts) ->
  wf_value u /\ wf_value p /\ wf_value ua /\ wf_value ts.
Proof.
  intros Hb Hd. destruct body; invc Hd; repeat split;
    first [apply all_undefined | exact (get_v_wf _ _ Hb)].
Qed.

End JsValue.
