(* ===== verification/Json.v ===== *)
(** [JSON.stringify] as line 66 of [src/api/log.js] applies it to the
    payload, following ECMA-262 (2019 and later): SerializeJSONProperty,
    SerializeJSONObject, SerializeJSONArray and QuoteJSONString, with no
    replacer and no indentation.  A JSON string-literal reader (the
    string grammar of JSON.parse, as the receiving side reads the body)
    is given as the inverse of QuoteJSONString, and the round trip is
    proved for every string of code units. *)

From Stdlib Require Import ZArith Lia String.
From stdpp Require Import base list decidable.
From S2P Require Import Prelude JsString JsValue.

Module Json.
Import JsString JsValue.
Local Open Scope Z_scope.

(** ** QuoteJSONString *)

(** Lowercase hexadecimal digit of [0 <= d < 16]. *)
Definition hex_digit (d : Z) : Z := if d <? 10 then 48 + d else 87 + d.

(** UnicodeEscape(C): [\u] and four lowercase hex digits. *)
Definition unicode_escape (c : Z) : jsstring :=
  [92; 117; hex_digit (c / 4096 mod 16); hex_digit (c / 256 mod 16);
   hex_digit (c / 16 mod 16); hex_digit (c mod 16)].

(** One code point that is not a surrogate: the short escapes of
    Table 74, UnicodeEscape below 0x20, itself otherwise. *)
Definition escape_unit (c : Z) : jsstring :=
  if c =? 0x8 then [92; 98]            (* \b *)
  else if c =? 0x9 then [92; 116]      (* \t *)
  else if c =? 0xA then [92; 110]      (* \n *)
  else if c =? 0xC then [92; 102]      (* \f *)
  else if c =? 0xD then [92; 114]      (* \r *)
  else if c =? 0x22 then [92; 34]      (* backslash, quotation mark *)
  else if c =? 0x5C then [92; 92]      (* \\ *)
  else if c <? 0x20 then unicode_escape c
  else [c].

(** The code points of StringToCodePoints, read on code units: a
    well-formed surrogate pair is one code point, copied; a lone
    surrogate is escaped with UnicodeEscape. *)
Fixpoint quote_units (s : jsstring) : jsstring :=
  match s with
  | [] => []
  | c :: rest =>
      if is_high_surrogate c then
        match rest with
        | d :: rest' =>
            if is_low_surrogate d then c :: d :: quote_units rest'
            else unicode_escape c ++ quote_units rest
        | [] => unicode_escape c
        end
      else if is_low_surrogate c then unicode_escape c ++ quote_units rest
      else escape_unit c ++ quote_units rest
  end.

Definition quote (s : jsstring) : jsstring := [34] ++ quote_units s ++ [34].

(** ** SerializeJSONProperty, SerializeJSONObject, SerializeJSONArray

    [None] is the [undefined] that SerializeJSONProperty returns for
    [undefined]: an object member with that value is left out, an array
    element becomes [null].  An own [toJSON] property of a JSON value is
    never callable and is ignored; numbers are finite and printed with
    ToString. *)
Fixpoint serialize_members (ser : jsval -> option jsstring)
    (ps : list (jsstring * jsval)) : list jsstring :=
  match ps with
  | [] => []
  | (k, e) :: l =>
      match ser e with
      | Some se => (quote k ++ lit ":" ++ se) :: serialize_members ser l
      | None => serialize_members ser l
      end
  end.

Fixpoint serialize (v : jsval) : option jsstring :=
  match v with
  | JUndefined => None
  | JNull => Some (lit "null")
  | JBool true => Some (lit "true")
  | JBool false => Some (lit "false")
  | JNumber n => Some (number_to_string n)
  | JString s => Some (quote s)
  | JArray es =>
      Some (lit "[" ++
            intercalate (lit ",") (map (fun e => default (lit "null") (serialize e)) es)
            ++ lit "]")
  | JObject ps =>
      Some (lit "{" ++ intercalate (lit ",") (serialize_members serialize ps) ++ lit "}")
  end.

(** [JSON.stringify(v)] with no replacer and no space argument. *)
Definition stringify (v : jsval) : option jsstring := serialize v.

(** ** The JSON string-literal reader *)

Definition hex_value (h : Z) : option Z :=
  if (48 <=? h) && (h <=? 57) then Some (h - 48)
  else if (97 <=? h) && (h <=? 102) then Some (h - 87)
  else if (65 <=? h) && (h <=? 70) then Some (h - 55)
  else None.

(** The one-character escapes of the JSON grammar. *)
Definition simple_escape (e : Z) : option Z :=
  if e =? 34 then Some 34 else if e =? 92 then Some 92
  else if e =? 47 then Some 47 else if e =? 98 then Some 8
  else if e =? 102 then Some 12 else if e =? 110 then Some 10
  else if e =? 114 then Some 13 else if e =? 116 then Some 9
  else None.

Definition cons_fst (c : Z) (o : option (jsstring * jsstring)) :=
  option_map (fun p => (c :: fst p, snd p)) o.

(** The characters of a string literal after its opening quote, up to
    and including the closing quote; returns the decoded code units and
    what follows the literal. *)
Fixpoint read_body (s : jsstring) : option (jsstring * jsstring) :=
  match s with
  | [] => None
  | c :: rest =>
      if c =? 34 then Some ([], rest)
      else if c =? 92 then
        match rest with
        | [] => None
        | e :: rest' =>
            if e =? 117 then
              match rest' with
              | h1 :: h2 :: h3 :: h4 :: rest'' =>
                  match hex_value h1, hex_value h2, hex_value h3, hex_value h4 with
                  | Some a, Some b, Some x, Some y =>
                      cons_fst (4096 * a + 256 * b + 16 * x + y) (read_body rest'')
                  | _, _, _, _ => None
                  end
              | _ => None
              end
            else match simple_escape e with
                 | Some u => cons_fst u (read_body rest')
                 | None => None
                 end
        end
      else if c <? 32 then None
      else cons_fst c (read_body rest)
  end.

Definition read_string (s : jsstring) : option (jsstring * jsstring) :=
  match s with
  | c :: rest => if c =? 34 then read_body rest else None
  | [] => None
  end.

(** ** Round trip of QuoteJSONString *)

Lemma hex_value_digit d : 0 <= d < 16 -> hex_value (hex_digit d) = Some d.
Proof. intros. unfold hex_digit, hex_value. zcase; simpl; try lia; f_equal; lia. Qed.

Lemma read_body_plain c t :
  32 <= c -> c <> 34 -> c <> 92 -> read_body (c :: t) = cons_fst c (read_body t).
Proof. intros. simpl. zcase; first [lia | reflexivity]. Qed.

(** The four hex digits of a code unit give it back. *)
Lemma hex_digits_value c :
  0 <= c < 65536 ->
  4096 * (c / 4096 mod 16) + 256 * (c / 256 mod 16) + 16 * (c / 16 mod 16) + c mod 16 = c.
Proof. intros Hc. zlia. Qed.

Lemma read_body_unicode_escape c t :
  0 <= c < 65536 -> read_body (unicode_escape c ++ t) = cons_fst c (read_body t).
Proof.
  intros Hc. unfold unicode_escape. cbn [app read_body Z.eqb Pos.eqb].
  rewrite !hex_value_digit by (apply Z.mod_pos_bound; lia).
  f_equal. by apply hex_digits_value.
Qed.

Lemma read_body_escape_unit c t :
  wf_unit c -> read_body (escape_unit c ++ t) = cons_fst c (read_body t).
Proof.
  unfold wf_unit, escape_unit. intros Hc.
  zcase; subst; try reflexivity; try lia.
  - by apply read_body_unicode_escape.
  - apply read_body_plain; lia.
Qed.

Lemma surrogate_plain c :
  is_high_surrogate c || is_low_surrogate c = true -> 32 <= c /\ c <> 34 /\ c <> 92.
Proof.
  unfold is_high_surrogate, is_low_surrogate.
  rewrite orb_true_iff, !andb_true_iff, !Z.leb_le. lia.
Qed.

Lemma quote_units_cons c rest :
  quote_units (c :: rest) =
    if is_high_surrogate c then
      match rest with
      | d :: rest' =>
          if is_low_surrogate d then c :: d :: quote_units rest'
          else unicode_escape c ++ quote_units rest
      | [] => unicode_escape c
      end
    else if is_low_surrogate c then unicode_escape c ++ quote_units rest
    else escape_unit c ++ quote_units rest.
Proof. reflexivity. Qed.

Lemma read_body_quote_units_n n (s : jsstring) t :
  (length s <= n)%nat -> wf_string s ->
  read_body (quote_units s ++ 34 :: t) = Some (s, t).
Proof.
  revert s. induction n as [|n IH]; intros s Hlen Hwf.
  { destruct s; [reflexivity | simpl in Hlen; lia]. }
  destruct s as [|c rest]; [reflexivity|].
  simpl in Hlen. inversion Hwf as [|? ? Hc Hrest]; subst.
  rewrite quote_units_cons. destruct (is_high_surrogate c) eqn:Hh.
  - destruct rest as [|d rest'].
    + rewrite read_body_unicode_escape by exact Hc. reflexivity.
    + inversion Hrest as [|? ? Hd Hrest']; subst.
      destruct (is_low_surrogate d) eqn:Hl.
      * destruct (surrogate_plain c) as (? & ? & ?); [by rewrite Hh|].
        destruct (surrogate_plain d) as (? & ? & ?); [by rewrite Hl, orb_true_r|].
        cbn [app]. rewrite !read_body_plain by lia.
        rewrite IH by (simpl in Hlen; lia || exact Hrest'). reflexivity.
      * rewrite <- app_assoc, read_body_unicode_escape by exact Hc.
        rewrite IH by (simpl in *; lia || exact Hrest). reflexivity.
  - destruct (is_low_surrogate c); rewrite <- app_assoc;
      [rewrite read_body_unicode_escape by exact Hc
      |rewrite read_body_escape_unit by exact Hc];
      rewrite IH by (lia || exact Hrest); reflexivity.
Qed.

(** C18: Round trip: reading back the JSON string literal that
    QuoteJSONString produces gives the original code units, lone
    surrogates included, and leaves the text after it untouched. *)
Theorem read_string_quote (s : jsstring) (t : jsstring) :
  wf_string s -> read_string (quote s ++ t) = Some (s, t).
Proof.
  intros Hwf. unfold quote. simpl. rewrite <- app_assoc.
  by apply (read_body_quote_units_n (length s)).
Qed.

(** ** What the serialization of an object or array contains *)

Lemma serialize_members_elem ser ps k e se :
  (k, e) ∈ ps -> ser e = Some se -> (quote k ++ lit ":" ++ se) ∈ serialize_members ser ps.
Proof.
  induction ps as [|[k' e'] ps IH]; intros Hin Hse; [by apply elem_of_nil in Hin|].
  simpl. apply elem_of_cons in Hin as [Heq|Hin].
  - injection Heq as -> ->. rewrite Hse. apply elem_of_cons. by left.
  - destruct (ser e'); [apply elem_of_cons; right|]; auto.
Qed.

(** A member [k : e] whose value serializes appears, as ["k":se], in
    the text of the object. *)
Lemma serialize_object_infix ps k e se body :
  (k, e) ∈ ps -> serialize e = Some se -> serialize (JObject ps) = Some body ->
  infix (quote k ++ lit ":" ++ se) body.
Proof.
  intros Hin Hse [= <-].
  apply infix_cons, infix_app_r, infix_intercalate. by eapply serialize_members_elem.
Qed.

(** An element of an array that serializes appears in the text of the
    array. *)
Lemma serialize_array_infix es e se body :
  e ∈ es -> serialize e = Some se -> serialize (JArray es) = Some body -> infix se body.
Proof.
  intros Hin Hse [= <-].
  apply infix_cons, infix_app_r, infix_intercalate.
  apply list_elem_of_In, in_map_iff. exists e. rewrite Hse.
  split; [done|]. by apply list_elem_of_In.
Qed.

Lemma serialize_object_infix_value ps k e se body :
  (k, e) ∈ ps -> serialize e = Some se -> serialize (JObject ps) = Some body ->
  infix se body.
Proof.
  intros Hin Hse Hb. eapply infix_trans; [|eapply serialize_object_infix; eauto].
  apply infix_app_l, infix_app_l, infix_refl.
Qed.

Lemma read_string_quote_witness :
  read_string (quote [0xD800; 34; 10; 0xD83D; 0xDEA8] ++ lit ",") =
    Some ([0xD800; 34; 10; 0xD83D; 0xDEA8], lit ",").
Proof. apply read_string_quote. vm_compute. repeat constructor; discriminate. Defined.

Lemma serialize_array_some es : is_Some (serialize (JArray es)).
Proof. by eexists. Qed.

(** ** Invariants of the serialized text

    A property [Q] of strings that holds of the literals, is preserved by
    concatenation and holds of [quote s] when [s] satisfies [R] holds of
    the serialization of every value whose strings satisfy [R]. *)
Section Serialize_invariant.
Variables (Q R : jsstring -> Prop).
Hypothesis Q_app : forall s t, Q s -> Q t -> Q (s ++ t).
Hypothesis Q_lit : forall s, Q (lit s).
Hypothesis Q_quote : forall s, R s -> Q (quote s).

Lemma Q_intercalate sep ls : Q sep -> Forall Q ls -> Q (intercalate sep ls).
Proof.
  intros Hsep. induction 1 as [|x ls Hx Hls IH]; [apply (Q_lit "")|].
  destruct ls; [exact Hx|]. rewrite intercalate_cons by discriminate. auto.
Qed.

Lemma serialize_members_invariant ps :
  Forall (fun p => R (fst p) /\ forall t, serialize (snd p) = Some t -> Q t) ps ->
  Forall Q (serialize_members serialize ps).
Proof.
  induction 1 as [|[k e] ps [Hk He] _ IH]; [constructor|].
  cbn [serialize_members fst snd] in *.
  destruct (serialize e) eqn:Hse; [|exact IH].
  constructor; [|exact IH].
  apply Q_app; [by apply Q_quote|apply Q_app; [apply Q_lit|by apply He]].
Qed.

Lemma serialize_invariant_opt v : all_strings R v -> from_option Q True (serialize v).
Proof.
  induction v as [| | [] | n | s | es IH | ps IH] using jsval_ind';
    intros Hv; inversion Hv as [| | | | ? Hs | ? Hes | ? Hps]; subst;
    cbn [serialize from_option]; auto; [unfold number_to_string; apply Q_lit| |].
  - apply Q_app, Q_app; auto. apply Q_intercalate; [auto|].
    apply Forall_forall. intros x Hx. apply in_map_iff in Hx as (e & <- & He).
    rewrite Forall_forall in IH, Hes. specialize (IH e He (Hes e He)).
    destruct (serialize e); [exact IH|apply Q_lit].
  - apply Q_app, Q_app; auto. apply Q_intercalate; [auto|].
    apply serialize_members_invariant.
    rewrite Forall_forall in IH, Hps |- *. intros p Hp. split; [apply Hps, Hp|].
    intros t' Ht'. specialize (IH p Hp (proj2 (Hps p Hp))). by rewrite Ht' in IH.
Qed.

Lemma serialize_invariant v t : all_strings R v -> serialize v = Some t -> Q t.
Proof. intros Hv Ht. pose proof (serialize_invariant_opt v Hv) as H. by rewrite Ht in H. Qed.
End Serialize_invariant.

End Json.
