(* ===== verification/Utf8.v ===== *)
(** The bytes [fetch] sends for the string body of line 66.  A string
    body is converted to a scalar value string (each lone surrogate
    replaced by U+FFFD) and UTF-8 encoded (Fetch, "extract a body";
    Encoding, "UTF-8 encode").  This file models that conversion and
    encoder, a strict UTF-8 decoder, and proves that a string with no
    lone surrogate comes back unchanged from its bytes; with the
    well-formedness of JSON.stringify's output (ES2019: lone surrogates
    are escaped) this shows that the body the webhook receives decodes to
    exactly the JSON text the handler built. *)

From Stdlib Require Import ZArith Lia String.
From stdpp Require Import base list decidable.
From S2P Require Import Prelude JsString JsValue Json.

Module Utf8.
Import JsString JsValue Json.
Local Open Scope Z_scope.

(** ** From UTF-16 code units to code points *)

(** The code point of a surrogate pair. *)
Definition pair_point (hi lo : Z) : Z := 0x10000 + (hi - 0xD800) * 0x400 + (lo - 0xDC00).

(** Conversion to a scalar value string, as code points: pairs combine,
    lone surrogates become U+FFFD. *)
Fixpoint code_points (s : jsstring) : list Z :=
  match s with
  | [] => []
  | c :: rest =>
      if is_high_surrogate c then
        match rest with
        | d :: rest' =>
            if is_low_surrogate d then pair_point c d :: code_points rest'
            else 0xFFFD :: code_points rest
        | [] => [0xFFFD]
        end
      else if is_low_surrogate c then 0xFFFD :: code_points rest
      else c :: code_points rest
  end.

(** No lone surrogate: every high surrogate is followed by a low one,
    and no low surrogate stands alone. *)
Fixpoint well_formed (s : jsstring) : bool :=
  match s with
  | [] => true
  | c :: rest =>
      if is_high_surrogate c then
        match rest with
        | d :: rest' => is_low_surrogate d && well_formed rest'
        | [] => false
        end
      else negb (is_low_surrogate c) && well_formed rest
  end.

(** ** UTF-8 encoder (Encoding standard, "UTF-8 encoder") *)

Definition continuation (cp : Z) (shift : Z) : Z :=
  Z.lor 0x80 (Z.land (Z.shiftr cp shift) 0x3F).

Definition encode_point (cp : Z) : list Z :=
  if cp <? 0x80 then [cp]
  else if cp <? 0x800 then [Z.shiftr cp 6 + 0xC0; continuation cp 0]
  else if cp <? 0x10000 then
    [Z.shiftr cp 12 + 0xE0; continuation cp 6; continuation cp 0]
  else [Z.shiftr cp 18 + 0xF0; continuation cp 12; continuation cp 6; continuation cp 0].

Definition utf8_encode (s : jsstring) : list Z := concat (map encode_point (code_points s)).

(** ** A strict UTF-8 decoder and UTF-16 encoding of code points *)

Definition is_cont (b : Z) : bool := (0x80 <=? b) && (b <=? 0xBF).

Definition is_scalar (cp : Z) : bool :=
  (0 <=? cp) && (cp <=? 0x10FFFF) && negb ((0xD800 <=? cp) && (cp <=? 0xDFFF)).

Fixpoint utf8_decode (bs : list Z) : option (list Z) :=
  match bs with
  | [] => Some []
  | b0 :: rest =>
      if (0 <=? b0) && (b0 <? 0x80) then cons b0 <$> utf8_decode rest
      else if (0xC2 <=? b0) && (b0 <=? 0xDF) then
        match rest with
        | b1 :: rest' =>
            if is_cont b1 then cons ((b0 - 0xC0) * 64 + (b1 - 0x80)) <$> utf8_decode rest'
            else None
        | _ => None
        end
      else if (0xE0 <=? b0) && (b0 <=? 0xEF) then
        match rest with
        | b1 :: b2 :: rest' =>
            let cp := (b0 - 0xE0) * 4096 + (b1 - 0x80) * 64 + (b2 - 0x80) in
            if is_cont b1 && is_cont b2 && (0x800 <=? cp) && is_scalar cp
            then cons cp <$> utf8_decode rest' else None
        | _ => None
        end
      else if (0xF0 <=? b0) && (b0 <=? 0xF4) then
        match rest with
        | b1 :: b2 :: b3 :: rest' =>
            let cp := (b0 - 0xF0) * 262144 + (b1 - 0x80) * 4096 + (b2 - 0x80) * 64 + (b3 - 0x80) in
            if is_cont b1 && is_cont b2 && is_cont b3 && (0x10000 <=? cp) && is_scalar cp
            then cons cp <$> utf8_decode rest' else None
        | _ => None
        end
      else None
  end.

Definition utf16_of_point (cp : Z) : jsstring :=
  if cp <? 0x10000 then [cp]
  else [0xD800 + (cp - 0x10000) / 0x400; 0xDC00 + (cp - 0x10000) mod 0x400].

Definition from_code_points (cps : list Z) : jsstring := concat (map utf16_of_point cps).

(** ** The encoder, one code point at a time *)

Lemma lor_0x80 y : 0 <= y < 64 -> Z.lor 0x80 y = 0x80 + y.
Proof.
  intros Hy.
  assert (Hl : Z.land 0x80 y = 0).
  { rewrite <- (Z.mod_small y 64) by lia. change 64 with (2 ^ 6).
    rewrite <- Z.land_ones by lia. rewrite (Z.land_comm y), Z.land_assoc. reflexivity. }
  rewrite <- Z.lxor_lor by exact Hl. symmetry. by apply Z.add_nocarry_lxor.
Qed.

Lemma continuation_eq cp k :
  0 <= k -> continuation cp k = 0x80 + (cp / 2 ^ k) mod 64.
Proof.
  intros Hk. unfold continuation.
  rewrite Z.shiftr_div_pow2 by exact Hk.
  change 0x3F with (Z.ones 6). rewrite Z.land_ones by lia.
  apply lor_0x80. apply Z.mod_pos_bound. lia.
Qed.

Lemma encode_point_cases cp :
  0 <= cp ->
  encode_point cp =
    if cp <? 0x80 then [cp]
    else if cp <? 0x800 then [cp / 64 + 0xC0; 0x80 + cp mod 64]
    else if cp <? 0x10000 then
      [cp / 4096 + 0xE0; 0x80 + (cp / 64) mod 64; 0x80 + cp mod 64]
    else [cp / 262144 + 0xF0; 0x80 + (cp / 4096) mod 64; 0x80 + (cp / 64) mod 64;
          0x80 + cp mod 64].
Proof.
  intros Hcp. unfold encode_point.
  rewrite !continuation_eq, !Z.shiftr_div_pow2 by lia.
  change (2 ^ 0) with 1; change (2 ^ 6) with 64; change (2 ^ 12) with 4096;
    change (2 ^ 18) with 262144.
  by rewrite Z.div_1_r.
Qed.

Lemma is_scalar_spec cp :
  is_scalar cp = true <-> 0 <= cp <= 0x10FFFF /\ ~ (0xD800 <= cp <= 0xDFFF).
Proof.
  unfold is_scalar. rewrite !andb_true_iff, negb_true_iff, !Z.leb_le, andb_false_iff,
    !Z.leb_gt. lia.
Qed.

(** Decoding the bytes of one scalar value gives it back. *)
Lemma utf8_decode_point cp rest :
  is_scalar cp = true -> utf8_decode (encode_point cp ++ rest) = cons cp <$> utf8_decode rest.
Proof.
  intros Hs. apply is_scalar_spec in Hs.
  rewrite encode_point_cases by lia.
  destruct (Z.ltb_spec cp 0x80); [cbn [app utf8_decode]; zsimpl; reflexivity|].
  destruct (Z.ltb_spec cp 0x800);
    [|destruct (Z.ltb_spec cp 0x10000)];
    cbn [app utf8_decode]; unfold is_cont, is_scalar; zsimpl;
    zcase; cbn [andb negb]; try (exfalso; zlia); do 2 f_equal; zlia.
Qed.

(** ** Code points of well-formed strings *)

Lemma code_points_cons c rest :
  code_points (c :: rest) =
    if is_high_surrogate c then
      match rest with
      | d :: rest' =>
          if is_low_surrogate d then pair_point c d :: code_points rest'
          else 0xFFFD :: code_points rest
      | [] => [0xFFFD]
      end
    else if is_low_surrogate c then 0xFFFD :: code_points rest
    else c :: code_points rest.
Proof. reflexivity. Qed.

Lemma well_formed_cons c rest :
  well_formed (c :: rest) =
    if is_high_surrogate c then
      match rest with
      | d :: rest' => is_low_surrogate d && well_formed rest'
      | [] => false
      end
    else negb (is_low_surrogate c) && well_formed rest.
Proof. reflexivity. Qed.

Lemma pair_point_scalar c d :
  is_high_surrogate c = true -> is_low_surrogate d = true ->
  is_scalar (pair_point c d) = true.
Proof.
  unfold is_high_surrogate, is_low_surrogate, pair_point.
  rewrite !andb_true_iff, !Z.leb_le, is_scalar_spec. lia.
Qed.

Lemma unit_scalar c :
  wf_unit c -> is_high_surrogate c = false -> is_low_surrogate c = false ->
  is_scalar c = true.
Proof.
  unfold wf_unit, is_high_surrogate, is_low_surrogate.
  rewrite !andb_false_iff, !Z.leb_gt, is_scalar_spec. lia.
Qed.

Lemma code_points_scalar (s : jsstring) :
  wf_string s -> Forall (fun cp => is_scalar cp = true) (code_points s).
Proof.
  induction s as [|c|c d rest IH1 IH2] using list_ind2; intros Hwf; [constructor| |].
  - simpl. destruct (is_high_surrogate c) eqn:Hh; [repeat constructor|].
    destruct (is_low_surrogate c) eqn:Hl; [repeat constructor|].
    inversion Hwf. repeat constructor. by apply unit_scalar.
  - inversion Hwf as [|? ? Hc Hrest]; subst. inversion Hrest as [|? ? Hd Hrest']; subst.
    rewrite code_points_cons. destruct (is_high_surrogate c) eqn:Hh.
    + destruct (is_low_surrogate d) eqn:Hl; constructor; auto using pair_point_scalar.
    + destruct (is_low_surrogate c) eqn:Hl; constructor; auto using unit_scalar.
Qed.

Lemma utf8_decode_points cps :
  Forall (fun cp => is_scalar cp = true) cps ->
  utf8_decode (concat (map encode_point cps)) = Some cps.
Proof.
  induction 1 as [|cp cps Hcp _ IH]; [reflexivity|].
  simpl. by rewrite utf8_decode_point, IH.
Qed.

Lemma utf16_of_pair c d :
  is_high_surrogate c = true -> is_low_surrogate d = true ->
  utf16_of_point (pair_point c d) = [c; d].
Proof.
  unfold is_high_surrogate, is_low_surrogate, utf16_of_point, pair_point.
  rewrite !andb_true_iff, !Z.leb_le. intros Hc Hd. zsimpl. do 2 f_equal; [|f_equal]; zlia.
Qed.

Lemma from_code_points_well_formed (s : jsstring) :
  well_formed s = true -> wf_string s -> from_code_points (code_points s) = s.
Proof.
  unfold from_code_points.
  induction s as [|c|c d rest IH1 IH2] using list_ind2; intros Hwf Hu; [reflexivity| |].
  - simpl in Hwf |- *. destruct (is_high_surrogate c) eqn:Hh; [discriminate|].
    destruct (is_low_surrogate c); [discriminate|].
    inversion Hu as [|? ? Hc _]; subst. unfold wf_unit in Hc.
    unfold utf16_of_point. simpl. by zsimpl.
  - inversion Hu as [|? ? Hc Hrest]; subst. inversion Hrest as [|? ? Hd Hrest']; subst.
    rewrite well_formed_cons in Hwf. rewrite code_points_cons.
    destruct (is_high_surrogate c) eqn:Hh.
    + apply andb_true_iff in Hwf as [Hl Hw]. rewrite Hl. cbn [map concat].
      rewrite utf16_of_pair by done. cbn [app]. by rewrite IH1.
    + apply andb_true_iff in Hwf as [Hl Hw]. apply negb_true_iff in Hl. rewrite Hl.
      cbn [map concat]. unfold wf_unit in Hc. unfold utf16_of_point at 1. zsimpl.
      cbn [app]. by rewrite IH2.
Qed.

(** A string of code units with no lone surrogate is recovered exactly
    from its UTF-8 bytes. *)
Lemma utf8_decode_encode (s : jsstring) :
  well_formed s = true -> wf_string s ->
  option_map from_code_points (utf8_decode (utf8_encode s)) = Some s.
Proof.
  intros Hwf Hu. unfold utf8_encode.
  rewrite utf8_decode_points by (apply code_points_scalar, Hu).
  simpl. by rewrite from_code_points_well_formed.
Qed.

(** ** JSON.stringify produces no lone surrogate *)

Lemma well_formed_app s t :
  well_formed s = true -> well_formed t = true -> well_formed (s ++ t) = true.
Proof.
  induction s as [|x|x y l IH1 IH2] using list_ind2; intros Hs Ht; [exact Ht| |];
    cbn [app]; rewrite well_formed_cons in Hs |- *;
    destruct (is_high_surrogate x); try discriminate.
  - apply andb_true_iff in Hs as [Hx _]. by rewrite Hx.
  - apply andb_true_iff in Hs as [Hy Hl]. rewrite Hy. by apply IH1.
  - apply andb_true_iff in Hs as [Hx Hyl]. rewrite Hx. by apply IH2.
Qed.

(** Code units below the surrogate range, as ASCII text and escapes. *)
Definition plain (l : jsstring) : Prop := Forall (fun c => 0 <= c < 0xD800) l.

Lemma plain_well_formed l : plain l -> well_formed l = true.
Proof.
  induction 1 as [|c l Hc _ IH]; [done|].
  rewrite well_formed_cons. unfold is_high_surrogate, is_low_surrogate. zsimpl. exact IH.
Qed.

Lemma plain_wf l : plain l -> wf_string l.
Proof. apply Forall_impl. unfold wf_unit. lia. Qed.

Lemma lit_plain s : plain (lit s).
Proof.
  apply Forall_forall. intros c Hc. apply in_map_iff in Hc as (a & <- & _).
  pose proof (unit_of_ascii_bound a). lia.
Qed.

Lemma unicode_escape_plain c : plain (unicode_escape c).
Proof. unfold plain, unicode_escape, hex_digit. repeat constructor; zcase; zlia. Qed.

Lemma escape_unit_cases c :
  escape_unit c = [c] \/ plain (escape_unit c).
Proof.
  unfold escape_unit. zcase; try (right; repeat constructor; lia); [|by left].
  right. apply unicode_escape_plain.
Qed.

Lemma quote_units_cases c rest :
  exists head tail,
    quote_units (c :: rest) = head ++ quote_units tail /\
    ((head = [c] /\ is_high_surrogate c = false /\ is_low_surrogate c = false /\ tail = rest) \/
     (plain head /\ tail = rest) \/
     (exists d, rest = d :: tail /\ head = [c; d] /\
                is_high_surrogate c = true /\ is_low_surrogate d = true) \/
     (plain head /\ tail = [])).
Proof.
  rewrite quote_units_cons. destruct (is_high_surrogate c) eqn:Hh.
  - destruct rest as [|d rest'].
    + exists (unicode_escape c), []. rewrite app_nil_r.
      split; [done|]. do 3 right. split; [apply unicode_escape_plain|done].
    + destruct (is_low_surrogate d) eqn:Hl.
      * exists [c; d], rest'. split; [done|]. right; right; left. eauto.
      * exists (unicode_escape c), (d :: rest'). split; [done|].
        right; left. split; [apply unicode_escape_plain|done].
  - destruct (is_low_surrogate c) eqn:Hl.
    + exists (unicode_escape c), rest. split; [done|].
      right; left. split; [apply unicode_escape_plain|done].
    + exists (escape_unit c), rest. split; [done|].
      destruct (escape_unit_cases c) as [->|Hp]; [left|right; left]; done.
Qed.

(** A property of strings closed under concatenation and true of the
    pieces [quote_units] emits holds of its output. *)
Lemma quote_units_invariant (P : Z -> Prop) (Q : jsstring -> Prop) :
  Q [] -> (forall s t, Q s -> Q t -> Q (s ++ t)) ->
  (forall c, P c -> is_high_surrogate c = false -> is_low_surrogate c = false -> Q [c]) ->
  (forall l, plain l -> Q l) ->
  (forall c d, P c -> P d -> is_high_surrogate c = true -> is_low_surrogate d = true ->
     Q [c; d]) ->
  forall s, Forall P s -> Q (quote_units s).
Proof.
  intros Qnil Qapp Qone Qplain Qpair s.
  induction s as [|c|c d rest IH1 IH2] using list_ind2; intros Hs; [exact Qnil| |];
    inversion Hs as [|? ? Hc Hrest]; subst.
  - destruct (quote_units_cases c []) as (head & tail & -> & H).
    destruct H as [(-> & Hh & Hl & ->)|[(Hp & ->)|[(d & [=] & _)|(Hp & ->)]]];
      apply Qapp; auto.
  - inversion Hrest as [|? ? Hd Hrest']; subst.
    destruct (quote_units_cases c (d :: rest)) as (head & tail & -> & H).
    destruct H as [(-> & Hh & Hl & ->)|[(Hp & ->)|[(d' & [= <- <-] & -> & Hh & Hl)|(Hp & ->)]]];
      apply Qapp; auto.
Qed.

Lemma quote_well_formed s : well_formed (quote s) = true.
Proof.
  unfold quote. apply well_formed_app; [reflexivity|]. apply well_formed_app; [|reflexivity].
  apply (quote_units_invariant (fun _ => True) (fun t => well_formed t = true));
    auto using well_formed_app, plain_well_formed.
  - intros c _ Hh Hl. rewrite well_formed_cons, Hh, Hl. reflexivity.
  - intros c d _ _ Hh Hl. rewrite well_formed_cons, Hh. simpl. by rewrite Hl.
  - apply Forall_forall. auto.
Qed.

Lemma quote_wf s : wf_string s -> wf_string (quote s).
Proof.
  intros Hs. unfold quote.
  apply wf_string_app; [repeat constructor; lia|]. apply wf_string_app; [|repeat constructor; lia].
  apply (quote_units_invariant wf_unit wf_string); auto using wf_string_app, plain_wf.
  - constructor.
  - intros c Hc _ _. by apply Forall_cons.
  - intros c d Hc Hd _ _. by apply Forall_cons; [|apply Forall_cons].
Qed.

(** Every text JSON.stringify produces is free of lone surrogates. *)
Lemma serialize_well_formed v t : serialize v = Some t -> well_formed t = true.
Proof.
  apply (serialize_invariant (fun t => well_formed t = true) (fun _ => True));
    auto using well_formed_app, quote_well_formed, all_strings_true.
  intros s. apply plain_well_formed, lit_plain.
Qed.

(** ... and made of valid code units when the value's strings are. *)
Lemma serialize_wf v t : wf_value v -> serialize v = Some t -> wf_string t.
Proof.
  apply (serialize_invariant wf_string wf_string); auto using wf_string_app, quote_wf.
  intros s. apply plain_wf, lit_plain.
Qed.

(** C22: The bytes [fetch] sends for the JSON text of a value whose strings
    are made of valid code units decode back to exactly that text: the
    conversion to a scalar value string replaces nothing, because
    JSON.stringify escapes every lone surrogate. *)
Theorem stringify_bytes_roundtrip v t :
  wf_value v -> stringify v = Some t ->
  option_map from_code_points (utf8_decode (utf8_encode t)) = Some t.
Proof.
  intros Hv Ht. apply utf8_decode_encode.
  - by eapply serialize_well_formed.
  - by eapply serialize_wf.
Qed.

Lemma stringify_bytes_roundtrip_witness :
  option_map from_code_points
    (utf8_decode (utf8_encode (lit "{" ++ quote (lit "k") ++ lit ":" ++ quote [0xD83D; 0xDEA8; 0xD800] ++ lit "}")))
  = Some (lit "{" ++ quote (lit "k") ++ lit ":" ++ quote [0xD83D; 0xDEA8; 0xD800] ++ lit "}").
Proof.
  apply (stringify_bytes_roundtrip (JObject [(lit "k", JString [0xD83D; 0xDEA8; 0xD800])]));
    [|reflexivity].
  apply all_object, Forall_cons; [split; [by_decide|apply all_string; by_decide]|apply Forall_nil].
Defined.

End Utf8.
