(* ===== verification/Payload.v ===== *)
(** The [discordPayload] object literal of [src/api/log.js] (lines
    19-47): its evaluation, which converts [username], [password] and
    [userAgent] with ToString inside template literals (in that order,
    the order of the literal's properties) and stores [timestamp] as it
    is; and what the JSON text of the payload, the body of the outbound
    request, contains. *)

From Stdlib Require Import ZArith Lia String.
From stdpp Require Import base list decidable.
From S2P Require Import Prelude JsString JsValue Json Utf8.

Module Payload.
Import JsString JsValue Json Utf8.
Local Open Scope Z_scope.
Local Open Scope js_scope.

(** [`\`\`\`${x}\`\`\``]: the converted value between two Markdown code
    fences. *)
Definition fence (s : jsstring) : jsstring := lit "```" ++ s ++ lit "```".

(** [{ name: ..., value: ..., inline: ... }] *)
Definition field (name : jsstring) (value : jsval) (inline : bool) : jsval :=
  JObject [(lit "name", JString name); (lit "value", value); (lit "inline", JBool inline)].

Definition content_text : jsstring :=
  police_light ++ lit " **New Login Attempt** " ++ police_light.
Definition username_label : jsstring := bust ++ lit " Username / Email".
Definition password_label : jsstring := key ++ lit " Password".
Definition timestamp_label : jsstring := clock_one ++ lit " Timestamp".
Definition user_agent_label : jsstring := globe ++ lit " User Agent".

(** The object literal once its three template literals are evaluated:
    the four fields (lines 24-45), the embed (lines 21-46) and the
    payload (lines 19-47). *)
Definition fields (u p : jsstring) (timestamp : jsval) (ua : jsstring) : list jsval :=
  [field username_label (JString (fence u)) false;
   field password_label (JString (fence p)) false;
   field timestamp_label timestamp true;
   field user_agent_label (JString (fence ua)) true].

Definition embed (u p : jsstring) (timestamp : jsval) (ua : jsstring) : jsval :=
  JObject
    [(lit "title", JString (lit "Captured Credentials"));
     (lit "color", JNumber 0xff0000);
     (lit "fields", JArray (fields u p timestamp ua))].

Definition payload_object (u p : jsstring) (timestamp : jsval) (ua : jsstring) : jsval :=
  JObject
    [(lit "content", JString content_text);
     (lit "embeds", JArray [embed u p timestamp ua])].

(** Evaluation of the literal: the template literals run in source
    order and the first one that throws ends the evaluation. *)
Definition discord_payload (username password userAgent timestamp : jsval) : result jsval :=
  let! u := to_string username in
  let! p := to_string password in
  let! ua := to_string userAgent in
  Normal (payload_object u p timestamp ua).

(** The JSON text of one field of [fields]: SerializeJSONObject leaves
    the [value] member out when the value serializes to [undefined]. *)
Definition field_text (name : jsstring) (value : option jsstring) (inline : bool) : jsstring :=
  lit "{" ++
  intercalate (lit ",")
    ([quote (lit "name") ++ lit ":" ++ quote name] ++
     match value with Some v => [quote (lit "value") ++ lit ":" ++ v] | None => [] end ++
     [quote (lit "inline") ++ lit ":" ++ lit (if inline then "true" else "false")])
  ++ lit "}".

(** ** Lemmas *)

(** Builds [wf_value] and [wf_string] goals from their parts. *)
Ltac wf_tac :=
  repeat first [ assumption | apply all_object | apply all_array | apply all_string
               | apply all_number | apply all_bool | apply Forall_nil
               | apply Forall_cons | split | apply wf_string_app | apply wf_lit | by_decide ].

(** The payload is made of valid code units when the converted values
    and the timestamp are. *)
Lemma payload_object_wf u p ts ua :
  wf_string u -> wf_string p -> wf_value ts -> wf_string ua ->
  wf_value (payload_object u p ts ua).
Proof. intros. unfold payload_object, embed, fields, field, fence. wf_tac. Qed.

Lemma serialize_field name value inline :
  serialize (field name value inline) = Some (field_text name (serialize value) inline).
Proof. unfold field. cbn [serialize serialize_members]. by destruct (serialize value), inline. Qed.

(** Every field of the embed appears in the text of the payload. *)
Lemma payload_field_infix u p ts ua f sf body :
  f ∈ fields u p ts ua -> serialize f = Some sf ->
  stringify (payload_object u p ts ua) = Some body -> infix sf body.
Proof.
  intros Hf Hsf Hbody.
  destruct (serialize_array_some (fields u p ts ua)) as [sfa Hsfa].
  destruct (serialize (embed u p ts ua)) as [se|] eqn:Hse; [|discriminate].
  unfold embed in Hse.
  destruct (serialize_array_some [embed u p ts ua]) as [sea Hsea].
  eapply infix_trans; [eapply serialize_array_infix; eauto|].
  eapply infix_trans; [refine (serialize_object_infix_value _ _ _ _ _ _ Hsfa Hse)|].
  { list_elem. }
  eapply infix_trans; [refine (serialize_array_infix _ _ _ _ _ Hse Hsea)|].
  { list_elem. }
  refine (serialize_object_infix_value _ _ _ _ _ _ Hsea Hbody). list_elem.
Qed.

Lemma payload_field_text_infix u p ts ua name v inline body :
  field name v inline ∈ fields u p ts ua -> stringify (payload_object u p ts ua) = Some body ->
  infix (field_text name (serialize v) inline) body.
Proof. intros. eapply payload_field_infix; eauto using serialize_field. Qed.

Lemma discord_payload_normal username password userAgent timestamp u p ua :
  to_string username = Normal u -> to_string password = Normal p ->
  to_string userAgent = Normal ua ->
  discord_payload username password userAgent timestamp = Normal (payload_object u p timestamp ua).
Proof. intros Hu Hp Hua. unfold discord_payload. by rewrite Hu, Hp, Hua. Qed.


(** C16: Building the payload succeeds exactly when the three values that go
    through a template literal are convertible; the timestamp is never
    converted. *)
Theorem discord_payload_normal_iff username password userAgent timestamp :
  (exists pl, discord_payload username password userAgent timestamp = Normal pl) <->
  convertible username = true /\ convertible password = true /\ convertible userAgent = true.
Proof.
  rewrite <- !to_string_normal_iff. unfold discord_payload.
  destruct (to_string username) as [u|], (to_string password) as [p|],
    (to_string userAgent) as [ua|]; simpl;
    split; intros H; repeat match goal with H : _ /\ _ |- _ => destruct H end;
    try match goal with H : exists _, Abrupt _ = Normal _ |- _ => destruct H; discriminate end;
    eauto; repeat split; eauto.
Qed.

(** The JSON text of the payload contains the four fields as they are
    rendered: the username, the password and the user agent as string
    values between code fences, and the timestamp as it serializes
    (with no [value] member at all when it is [undefined]). *)
Lemma payload_json_fields u p ts ua :
  exists body, stringify (payload_object u p ts ua) = Some body /\
    infix (field_text username_label (Some (quote (fence u))) false) body /\
    infix (field_text password_label (Some (quote (fence p))) false) body /\
    infix (field_text timestamp_label (serialize ts) true) body /\
    infix (field_text user_agent_label (Some (quote (fence ua))) true) body.
Proof.
  eexists; split; [reflexivity|]. repeat split.
  - apply (payload_field_text_infix u p ts ua _ (JString (fence u))); [list_elem|done].
  - apply (payload_field_text_infix u p ts ua _ (JString (fence p))); [list_elem|done].
  - apply (payload_field_text_infix u p ts ua); [list_elem|done].
  - apply (payload_field_text_infix u p ts ua _ (JString (fence ua))); [list_elem|done].
Qed.

(** C17: Absent [userAgent] and [timestamp] (they destructure to
    [undefined]): the user-agent field holds the text "undefined"
    between code fences, and the timestamp field has no [value] member
    at all in the JSON body, since JSON.stringify drops a member whose
    value is [undefined]. *)
Theorem discord_payload_missing_optional username password u p :
  to_string username = Normal u -> to_string password = Normal p ->
  exists pl body,
    discord_payload username password JUndefined JUndefined = Normal pl /\
    stringify pl = Some body /\
    infix (field_text timestamp_label None true) body /\
    infix (field_text user_agent_label (Some (quote (fence (lit "undefined")))) true) body.
Proof.
  intros Hu Hp.
  destruct (payload_json_fields u p JUndefined (lit "undefined")) as (body & Hb & _ & _ & Ht & Hua).
  exists (payload_object u p JUndefined (lit "undefined")), body.
  split; [by apply discord_payload_normal|]. done.
Qed.

Lemma discord_payload_missing_optional_witness :
  exists pl body,
    discord_payload (JString (lit "a@b.com")) (JString (lit "p1")) JUndefined JUndefined
      = Normal pl /\
    stringify pl = Some body /\
    infix (field_text timestamp_label None true) body /\
    infix (field_text user_agent_label (Some (quote (fence (lit "undefined")))) true) body.
Proof. apply discord_payload_missing_optional with (u := lit "a@b.com") (p := lit "p1"); reflexivity. Defined.

(** A payload that is built is the object of the three converted
    values and the raw timestamp. *)
Lemma discord_payload_inv username password userAgent timestamp pl :
  discord_payload username password userAgent timestamp = Normal pl ->
  exists u p ua, to_string username = Normal u /\ to_string password = Normal p /\
    to_string userAgent = Normal ua /\ pl = payload_object u p timestamp ua.
Proof.
  unfold discord_payload.
  destruct (to_string username) as [u|]; [|discriminate].
  destruct (to_string password) as [p|]; [|discriminate].
  destruct (to_string userAgent) as [ua|]; [|discriminate].
  intros Hpl. invc Hpl. eauto 7.
Qed.

(** The payload built from well-formed values serializes to a text
    whose UTF-8 encoding decodes back to it: the bytes of the request
    body carry the JSON text without loss. *)
Lemma discord_payload_wire username password userAgent timestamp pl :
  wf_value username -> wf_value password -> wf_value userAgent -> wf_value timestamp ->
  discord_payload username password userAgent timestamp = Normal pl ->
  exists text, stringify pl = Some text /\
    option_map from_code_points (utf8_decode (utf8_encode text)) = Some text.
Proof.
  intros Hu Hp Hua Hts Hpl.
  destruct (discord_payload_inv _ _ _ _ _ Hpl) as (u & p & ua & Eu & Ep & Eua & ->).
  destruct (payload_json_fields u p timestamp ua) as (text & Ht & _).
  exists text. split; [exact Ht|].
  apply utf8_decode_encode; [exact (serialize_well_formed _ _ Ht)|].
  refine (serialize_wf _ _ _ Ht).
  apply payload_object_wf; eauto using to_string_wf.
Qed.

End Payload.
