(* ===== verification/Effects.v ===== *)
(** The effects of [handler] in [src/api/log.js] and how they are run.

    An asynchronous function that awaits host promises is modelled as a
    finite tree of events ([io]), each event a call to the host with a
    continuation over its answer:
    - [Fetch]: [await fetch(url, init)] (line 61); the promise resolves
      with a Response or rejects;
    - [ReadText]: [await response.text()] (line 73);
    - [ConsoleError]: [console.error(...)] (lines 56, 74, 85);
    - [Respond]: [res.status(code).json(obj)] (lines 7, 15, 58, 77, 82,
      87), which sends the HTTP response;
    and [Throw] for an exception thrown and not yet caught.  [bind] is
    sequencing, [try_catch] is [try { } catch (error) { }].

    The outbound endpoint is an interface, the class [Sink]: what
    [fetch] and [response.text()] answer.  [run] executes a tree against
    a sink and returns the trace of events and the completion. *)

From Stdlib Require Import ZArith Lia String.
From stdpp Require Import base list decidable.
From S2P Require Import Prelude JsString JsValue.

Module Effects.
Import JsString JsValue.
Local Open Scope Z_scope.

(** The second argument of [fetch] (lines 61-67). *)
Record fetch_init := {
  init_method : jsstring;
  init_headers : list (jsstring * jsstring);
  init_body : option jsstring
}.

(** A Response as the handler uses it: its status; [ok] is a status in
    the range 200-299. *)
Record fetch_response := {
  resp_status : Z;
  resp_body : jsstring
}.

Definition resp_ok (r : fetch_response) : bool :=
  (200 <=? resp_status r) && (resp_status r <=? 299).

(** The arguments of a [console.error] call. *)
Inductive log_arg : Type :=
| LogString (s : jsstring)
| LogNumber (n : Z)
| LogError (e : exn).

Inductive io (A : Type) : Type :=
| Ret (a : A)
| Throw (e : exn)
| Fetch (url : jsval) (init : fetch_init) (k : completion exn fetch_response -> io A)
| ReadText (r : fetch_response) (k : completion exn jsstring -> io A)
| ConsoleError (args : list log_arg) (k : io A)
| Respond (status : Z) (body : jsval) (k : io A).
Arguments Ret {A} a.
Arguments Throw {A} e.
Arguments Fetch {A} url init k.
Arguments ReadText {A} r k.
Arguments ConsoleError {A} args k.
Arguments Respond {A} status body k.

Fixpoint bind {A B} (m : io A) (f : A -> io B) : io B :=
  match m with
  | Ret a => f a
  | Throw e => Throw e
  | Fetch u i k => Fetch u i (fun r => bind (k r) f)
  | ReadText r k => ReadText r (fun t => bind (k t) f)
  | ConsoleError args k => ConsoleError args (bind k f)
  | Respond c b k => Respond c b (bind k f)
  end.

(** [try { m } catch (error) { h(error) }] *)
Fixpoint try_catch {A} (m : io A) (h : exn -> io A) : io A :=
  match m with
  | Ret a => Ret a
  | Throw e => h e
  | Fetch u i k => Fetch u i (fun r => try_catch (k r) h)
  | ReadText r k => ReadText r (fun t => try_catch (k t) h)
  | ConsoleError args k => ConsoleError args (try_catch k h)
  | Respond c b k => Respond c b (try_catch k h)
  end.

Declare Scope io_scope.
Delimit Scope io_scope with io.
Notation "x <- m ;; k" := (bind m (fun x => k))
  (at level 100, m at next level, right associativity) : io_scope.
Notation "m ;; k" := (bind m (fun _ => k))
  (at level 100, right associativity) : io_scope.

(** A completion as a computation: [Abrupt] throws. *)
Definition lift {A} (c : completion exn A) : io A :=
  match c with
  | Normal a => Ret a
  | Abrupt e => Throw e
  end.

(** [await fetch(url, init)]: a rejected promise throws at the await.
    The first argument is the value the code passes, converted by
    [fetch] itself. *)
Definition await_fetch (url : jsval) (init : fetch_init) : io fetch_response :=
  Fetch url init lift.

(** [await response.text()] *)
Definition await_text (r : fetch_response) : io jsstring := ReadText r lift.

Definition console_error (args : list log_arg) : io unit := ConsoleError args (Ret tt).

(** [return res.status(code).json(body)] *)
Definition respond (code : Z) (body : jsval) : io unit := Respond code body (Ret tt).

(** ** The outbound endpoint *)

Class Sink := {
  sink_fetch : jsval -> fetch_init -> completion exn fetch_response;
  sink_text : fetch_response -> completion exn jsstring
}.

Inductive event : Type :=
| EvFetch (url : jsval) (init : fetch_init)
| EvReadText (r : fetch_response)
| EvConsoleError (args : list log_arg)
| EvRespond (status : Z) (body : jsval).

Definition prepend {A} (ev : event) (o : list event * completion exn A) :=
  (ev :: fst o, snd o).

Fixpoint run `{Sink} {A} (m : io A) : list event * completion exn A :=
  match m with
  | Ret a => ([], Normal a)
  | Throw e => ([], Abrupt e)
  | Fetch u i k => prepend (EvFetch u i) (run (k (sink_fetch u i)))
  | ReadText r k => prepend (EvReadText r) (run (k (sink_text r)))
  | ConsoleError args k => prepend (EvConsoleError args) (run k)
  | Respond c b k => prepend (EvRespond c b) (run k)
  end.

(** ** Running sequenced and guarded computations *)

Section Run.
Context `{Sink}.

(** The run of [m] followed by the run of [f a] when [m] returns [a]. *)
Definition then_run {A B} (o : list event * completion exn A) (f : A -> io B) :=
  match snd o with
  | Normal a => (fst o ++ fst (run (f a)), snd (run (f a)))
  | Abrupt e => (fst o, Abrupt e)
  end.

(** The run of [m], then of the handler [h e] when [m] throws [e]. *)
Definition catch_run {A} (o : list event * completion exn A) (h : exn -> io A) :=
  match snd o with
  | Normal a => o
  | Abrupt e => (fst o ++ fst (run (h e)), snd (run (h e)))
  end.

Lemma then_run_prepend {A B} ev (o : list event * completion exn A) (f : A -> io B) :
  then_run (prepend ev o) f = prepend ev (then_run o f).
Proof. unfold then_run, prepend. by destruct o as [t []]. Qed.

Lemma catch_run_prepend {A} ev (o : list event * completion exn A) h :
  catch_run (prepend ev o) h = prepend ev (catch_run o h).
Proof. unfold catch_run, prepend. by destruct o as [t []]. Qed.

Lemma run_bind {A B} (m : io A) (f : A -> io B) :
  run (bind m f) = then_run (run m) f.
Proof.
  induction m as [a|e|u i k IH|r k IH|args k IH|c b k IH]; simpl;
    rewrite ?IH, ?then_run_prepend; try reflexivity.
  unfold then_run. simpl. by destruct (run (f a)).
Qed.

Lemma run_try_catch {A} (m : io A) (h : exn -> io A) :
  run (try_catch m h) = catch_run (run m) h.
Proof.
  induction m as [a|e|u i k IH|r k IH|args k IH|c b k IH]; simpl;
    rewrite ?IH, ?catch_run_prepend; try reflexivity.
  unfold catch_run. simpl. by destruct (run (h e)).
Qed.

Lemma run_lift {A} (c : completion exn A) : run (lift c) = ([], c).
Proof. by destruct c. Qed.

Lemma run_await_fetch url init :
  run (await_fetch url init) = ([EvFetch url init], sink_fetch url init).
Proof. unfold await_fetch. simpl. by rewrite run_lift. Qed.

Lemma run_await_text r : run (await_text r) = ([EvReadText r], sink_text r).
Proof. unfold await_text. simpl. by rewrite run_lift. Qed.
End Run.

#[export] Hint Rewrite @run_bind @run_try_catch @run_lift @run_await_fetch
  @run_await_text : jsrw.

End Effects.
