(* ===== verification/Handler.v ===== *)
(** [export default async function handler(req, res)] of
    [src/api/log.js], lines 4-89, as a computation of [Effects.io].

    The request is what the handler reads of [req]: [req.method] and the
    value of [req.body] (Vercel's getter parses the body; it throws when
    a JSON body does not parse, which is a [HostError] here).  The
    configuration is [process.env.DISCORD_WEBHOOK_URL]: a string, or
    [undefined] when the variable is not set.  The response is the
    [Respond] event; the value the handler's promise resolves with is
    not observed by the platform and is [tt]. *)

From Stdlib Require Import ZArith Lia String.
From stdpp Require Import base list decidable.
From S2P Require Import Prelude JsString JsValue Json Payload Effects.

Module Handler.
Import JsString JsValue Json Payload Effects.
Local Open Scope Z_scope.
Local Open Scope io_scope.

Record request := {
  req_method : jsstring;
  req_body : completion exn jsval
}.

(** [process.env.DISCORD_WEBHOOK_URL] *)
Definition env_value (webhook : option jsstring) : jsval :=
  match webhook with
  | Some s => JString s
  | None => JUndefined
  end.

(** [{ message: m }] *)
Definition message (m : jsstring) : jsval := JObject [(lit "message", JString m)].

(** The init object of lines 61-67, with [JSON.stringify(discordPayload)]
    as body. *)
Definition webhook_init (body : option jsstring) : fetch_init := {|
  init_method := lit "POST";
  init_headers := [(lit "Content-Type", lit "application/json")];
  init_body := body
|}.

(** Lines 69-82: the outcome of the outbound call. *)
Definition after_fetch (discordResponse : fetch_response) : io unit :=
  if negb (resp_ok discordResponse) then
    errorBody <- await_text discordResponse ;;
    console_error [LogString (lit "Failed to send to Discord:");
                   LogNumber (resp_status discordResponse); LogString errorBody] ;;
    respond 500 (message (lit "Failed to log data."))
  else respond 200 (message (lit "Log received successfully.")).

(** Lines 18-82, after the validation: build the payload, read the
    configuration, call the webhook. *)
Definition forward (webhook : option jsstring)
    (username password userAgent timestamp : jsval) : io unit :=
  discordPayload <- lift (discord_payload username password userAgent timestamp) ;;
  let DISCORD_WEBHOOK_URL := env_value webhook in
  if negb (to_boolean DISCORD_WEBHOOK_URL) then
    console_error [LogString (lit "DISCORD_WEBHOOK_URL is not set in environment variables.")] ;;
    respond 500 (message (lit "Server configuration error."))
  else
    discordResponse <- await_fetch DISCORD_WEBHOOK_URL (webhook_init (stringify discordPayload)) ;;
    after_fetch discordResponse.

(** The body of the [try] block, lines 11-82. *)
Definition handler_try (webhook : option jsstring) (req : request) : io unit :=
  body <- lift (req_body req) ;;
  fields <- lift (destructure body) ;;
  let '(username, password, userAgent, timestamp) := fields in
  if negb (to_boolean username) || negb (to_boolean password) then
    respond 400 (message (lit "Username and password are required."))
  else forward webhook username password userAgent timestamp.

(** The [catch] block, lines 84-88. *)
Definition handler_catch (error : exn) : io unit :=
  console_error [LogString (lit "An unexpected error occurred in the API function:");
                 LogError error] ;;
  respond 500 (message (lit "An internal server error occurred.")).

(** Lines 4-89. *)
Definition handler (webhook : option jsstring) (req : request) : io unit :=
  if negb (strict_eqb (req_method req) (lit "POST")) then
    respond 405 (message (lit "Method Not Allowed"))
  else try_catch (handler_try webhook req) handler_catch.

(** ** Concrete inputs

    The scenario of spec.md section 8, and an endpoint that answers
    every call with a fixed status and body text. *)
Definition scenario_webhook : option jsstring :=
  Some (lit "https://discord.com/api/webhooks/1/token").

Definition scenario_body : jsval :=
  JObject [(lit "username", JString (lit "a@b.com")); (lit "password", JString (lit "p1"));
           (lit "userAgent", JString (lit "UA/1"));
           (lit "timestamp", JString (lit "2024-01-01T00:00:00Z"))].

Definition scenario_request : request :=
  {| req_method := lit "POST"; req_body := Normal scenario_body |}.

Definition fixed_sink (status : Z) (text : completion exn jsstring) : Sink := {|
  sink_fetch := fun _ _ => Normal {| resp_status := status; resp_body := [] |};
  sink_text := fun _ => text
|}.

Definition get_request : request :=
  {| req_method := lit "GET"; req_body := Normal scenario_body |}.

(** A password sent as the empty string. *)
Definition empty_password_request : request :=
  {| req_method := lit "POST";
     req_body := Normal (JObject [(lit "username", JString (lit "a@b.com"));
                                  (lit "password", JString [])]) |}.

(** A username sent as an object with its own [toString] key: truthy,
    but its template literal throws. *)
Definition object_username_request : request :=
  {| req_method := lit "POST";
     req_body := Normal (JObject [(lit "username", JObject [(lit "toString", JNull)]);
                                  (lit "password", JString (lit "p1"))]) |}.

(** A body whose JSON does not parse: Vercel's getter throws. *)
Definition unparsable_request : request :=
  {| req_method := lit "POST";
     req_body := Abrupt (HostError (lit "SyntaxError") (lit "Invalid JSON")) |}.

Definition network_error : exn := HostError (lit "TypeError") (lit "fetch failed").

Definition unreachable_sink : Sink := {|
  sink_fetch := fun _ _ => Abrupt network_error;
  sink_text := fun _ => Normal []
|}.

Definition ok_sink : Sink := fixed_sink 204 (Normal []).

Definition rejecting_sink : Sink := fixed_sink 400 (Normal (lit "Invalid Form Body")).

Definition broken_stream_sink : Sink :=
  fixed_sink 502 (Abrupt (HostError (lit "TypeError") (lit "terminated"))).

(** The events of the [catch] block. *)
Definition internal_error_trace (e : exn) : list event :=
  [EvConsoleError [LogString (lit "An unexpected error occurred in the API function:");
                   LogError e];
   EvRespond 500 (message (lit "An internal server error occurred."))].

(** ** Behaviour of each branch *)

(** Evaluates the run of a handler stage as far as its inputs allow. *)
Ltac run_step :=
  repeat (autorewrite with jsrw;
          cbn [then_run catch_run fst snd app prepend run lift negb orb andb]).

Section Branches.
Context `{Sink}.

Lemma run_after_fetch_ok r :
  resp_ok r = true ->
  run (after_fetch r) = ([EvRespond 200 (message (lit "Log received successfully."))], Normal tt).
Proof. intros Hok. unfold after_fetch. by rewrite Hok. Qed.

Lemma run_after_fetch_not_ok r :
  resp_ok r = false ->
  run (after_fetch r) =
    match sink_text r with
    | Normal errorBody =>
        ([EvReadText r;
          EvConsoleError [LogString (lit "Failed to send to Discord:");
                          LogNumber (resp_status r); LogString errorBody];
          EvRespond 500 (message (lit "Failed to log data."))], Normal tt)
    | Abrupt e => ([EvReadText r], Abrupt e)
    end.
Proof. intros Hok. unfold after_fetch. rewrite Hok. run_step. by destruct (sink_text r). Qed.

Lemma run_handler_catch e :
  run (handler_catch e) =
    ([EvConsoleError [LogString (lit "An unexpected error occurred in the API function:");
                      LogError e];
      EvRespond 500 (message (lit "An internal server error occurred."))], Normal tt).
Proof. reflexivity. Qed.
Lemma run_forward webhook username password userAgent timestamp :
  run (forward webhook username password userAgent timestamp) =
    match discord_payload username password userAgent timestamp with
    | Abrupt e => ([], Abrupt e)
    | Normal pl =>
        if to_boolean (env_value webhook) then
          prepend (EvFetch (env_value webhook) (webhook_init (stringify pl)))
            (match sink_fetch (env_value webhook) (webhook_init (stringify pl)) with
             | Abrupt e => ([], Abrupt e)
             | Normal r => run (after_fetch r)
             end)
        else
          ([EvConsoleError
              [LogString (lit "DISCORD_WEBHOOK_URL is not set in environment variables.")];
            EvRespond 500 (message (lit "Server configuration error."))], Normal tt)
    end.
Proof.
  unfold forward. run_step.
  destruct (discord_payload _ _ _ _) as [pl|e]; run_step; [|reflexivity].
  destruct (to_boolean (env_value webhook)); run_step; [|reflexivity].
  unfold prepend. by destruct (sink_fetch _ _); run_step; [destruct (run (after_fetch _))|].
Qed.

Lemma run_handler_try webhook req :
  run (handler_try webhook req) =
    match req_body req with
    | Abrupt e => ([], Abrupt e)
    | Normal body =>
        match destructure body with
        | Abrupt e => ([], Abrupt e)
        | Normal (username, password, userAgent, timestamp) =>
            if negb (to_boolean username) || negb (to_boolean password) then
              ([EvRespond 400 (message (lit "Username and password are required."))], Normal tt)
            else run (forward webhook username password userAgent timestamp)
        end
    end.
Proof.
  unfold handler_try. run_step.
  destruct (req_body req) as [body|e]; run_step; [|reflexivity].
  destruct (destructure body) as [[[[u p] ua] ts]|e]; run_step; [|reflexivity].
  destruct (negb (to_boolean u) || negb (to_boolean p)); [reflexivity|].
  by destruct (run (forward _ _ _ _ _)).
Qed.

Lemma run_handler_post webhook req :
  strict_eqb (req_method req) (lit "POST") = true ->
  run (handler webhook req) = catch_run (run (handler_try webhook req)) handler_catch.
Proof. intros Hm. unfold handler. rewrite Hm. simpl. by rewrite run_try_catch. Qed.
End Branches.

(** ** The handler, branch by branch *)

Section Handler_branches.
Context `{Sink}.

(** C7: Line 6: any method other than ["POST"] (compared with [!==], so
    case-sensitively) gets a 405 and nothing else happens. *)
Theorem handler_method_not_allowed webhook req :
  strict_eqb (req_method req) (lit "POST") = false ->
  run (handler webhook req) = ([EvRespond 405 (message (lit "Method Not Allowed"))], Normal tt).
Proof. intros Hm. unfold handler. by rewrite Hm. Qed.

Section Posted.
Variables (webhook : option jsstring) (req : request).
Hypothesis Hpost : strict_eqb (req_method req) (lit "POST") = true.

(** C15: Reading [req.body] throws (a body that does not parse). *)
Lemma handler_body_error e :
  req_body req = Abrupt e -> run (handler webhook req) = (internal_error_trace e, Normal tt).
Proof.
  intros Hb. rewrite run_handler_post, run_handler_try, Hb by exact Hpost. reflexivity.
Qed.

Section Destructured.
Variables (body username password userAgent timestamp : jsval).
Hypothesis Hbody : req_body req = Normal body.
Hypothesis Hdes : destructure body = Normal (username, password, userAgent, timestamp).

Lemma run_handler_destructured :
  run (handler webhook req) =
    catch_run
      (if negb (to_boolean username) || negb (to_boolean password) then
         ([EvRespond 400 (message (lit "Username and password are required."))], Normal tt)
       else run (forward webhook username password userAgent timestamp))
      handler_catch.
Proof. by rewrite run_handler_post, run_handler_try, Hbody, Hdes by exact Hpost. Qed.

(** C8: Lines 14-16: a falsy username or password gets a 400 and
    nothing else happens. *)
Theorem handler_validation_error :
  to_boolean username = false \/ to_boolean password = false ->
  run (handler webhook req) =
    ([EvRespond 400 (message (lit "Username and password are required."))], Normal tt).
Proof.
  intros Hf. rewrite run_handler_destructured.
  by destruct Hf as [-> | ->]; [|destruct (to_boolean username)].
Qed.

Section Validated.
Hypothesis Hu : to_boolean username = true.
Hypothesis Hp : to_boolean password = true.

Lemma run_handler_validated :
  run (handler webhook req) =
    catch_run (run (forward webhook username password userAgent timestamp)) handler_catch.
Proof. by rewrite run_handler_destructured, Hu, Hp. Qed.

(** C13: A template literal of the payload throws: no outbound call,
    and a 500 from the [catch] block. *)
Theorem handler_payload_error e :
  discord_payload username password userAgent timestamp = Abrupt e ->
  run (handler webhook req) = (internal_error_trace e, Normal tt).
Proof. intros He. by rewrite run_handler_validated, run_forward, He. Qed.

Variables (u p ua : jsstring).
Hypothesis Hsu : to_string username = Normal u.
Hypothesis Hsp : to_string password = Normal p.
Hypothesis Hsua : to_string userAgent = Normal ua.

Lemma run_handler_payload :
  run (handler webhook req) =
    catch_run
      (if to_boolean (env_value webhook) then
         prepend (EvFetch (env_value webhook)
                    (webhook_init (stringify (payload_object u p timestamp ua))))
           (match sink_fetch (env_value webhook)
                    (webhook_init (stringify (payload_object u p timestamp ua))) with
            | Abrupt e => ([], Abrupt e)
            | Normal r => run (after_fetch r)
            end)
       else
         ([EvConsoleError
             [LogString (lit "DISCORD_WEBHOOK_URL is not set in environment variables.")];
           EvRespond 500 (message (lit "Server configuration error."))], Normal tt))
      handler_catch.
Proof.
  rewrite run_handler_validated, run_forward.
  by rewrite (discord_payload_normal _ _ _ _ u p ua).
Qed.

(** C9: Lines 52-59: for a POST whose credentials pass the check and
    whose username, password and userAgent convert to strings (the
    payload of lines 19-47 is built first), an unset or empty
    [DISCORD_WEBHOOK_URL] is logged and gets a 500, with no outbound
    call. *)
Theorem handler_config_error :
  to_boolean (env_value webhook) = false ->
  run (handler webhook req) =
    ([EvConsoleError
        [LogString (lit "DISCORD_WEBHOOK_URL is not set in environment variables.")];
      EvRespond 500 (message (lit "Server configuration error."))], Normal tt).
Proof. intros Hw. by rewrite run_handler_payload, Hw. Qed.
Hypothesis Hurl : to_boolean (env_value webhook) = true.

(** C1: Lines 61-82 when the webhook answers with a 2xx: exactly one
    outbound call, to the configured URL, whose JSON body holds
    the username and the password verbatim as field values, and
    a 200. *)
Theorem handler_forwards_credentials r :
  sink_fetch (env_value webhook)
    (webhook_init (stringify (payload_object u p timestamp ua))) = Normal r ->
  resp_ok r = true ->
  exists text,
    run (handler webhook req) =
      ([EvFetch (env_value webhook) (webhook_init (Some text));
        EvRespond 200 (message (lit "Log received successfully."))], Normal tt) /\
    infix (field_text username_label (Some (quote (fence u))) false) text /\
    infix (field_text password_label (Some (quote (fence p))) false) text.
Proof.
  intros Hf Hok.
  destruct (payload_json_fields u p timestamp ua) as (text & Hb & Hiu & Hip & _).
  exists text. split; [|done].
  rewrite run_handler_payload, Hurl, Hf, run_after_fetch_ok, Hb by exact Hok.
  reflexivity.
Qed.

(** C10: Lines 71-78: a non-2xx answer; its body is read and logged,
    and the caller gets a generic 500. *)
Theorem handler_forward_failed r errorBody :
  sink_fetch (env_value webhook)
    (webhook_init (stringify (payload_object u p timestamp ua))) = Normal r ->
  resp_ok r = false -> sink_text r = Normal errorBody ->
  run (handler webhook req) =
    ([EvFetch (env_value webhook)
        (webhook_init (stringify (payload_object u p timestamp ua)));
      EvReadText r;
      EvConsoleError [LogString (lit "Failed to send to Discord:");
                      LogNumber (resp_status r); LogString errorBody];
      EvRespond 500 (message (lit "Failed to log data."))], Normal tt).
Proof.
  intros Hf Hok Ht.
  by rewrite run_handler_payload, Hurl, Hf, run_after_fetch_not_ok, Ht by exact Hok.
Qed.

(** C11: The outbound call rejects (a network error): the [catch]
    block answers. *)
Theorem handler_fetch_rejected e :
  sink_fetch (env_value webhook)
    (webhook_init (stringify (payload_object u p timestamp ua))) = Abrupt e ->
  run (handler webhook req) =
    (EvFetch (env_value webhook)
       (webhook_init (stringify (payload_object u p timestamp ua)))
     :: internal_error_trace e, Normal tt).
Proof. intros Hf. by rewrite run_handler_payload, Hurl, Hf. Qed.

(** C14: Reading the body of a non-2xx answer fails: the [catch] block
    answers, not the "Failed to log data." branch. *)
Theorem handler_text_rejected r e :
  sink_fetch (env_value webhook)
    (webhook_init (stringify (payload_object u p timestamp ua))) = Normal r ->
  resp_ok r = false -> sink_text r = Abrupt e ->
  run (handler webhook req) =
    (EvFetch (env_value webhook)
       (webhook_init (stringify (payload_object u p timestamp ua)))
     :: EvReadText r :: internal_error_trace e, Normal tt).
Proof.
  intros Hf Hok Ht.
  by rewrite run_handler_payload, Hurl, Hf, run_after_fetch_not_ok, Ht by exact Hok.
Qed.
End Validated.
End Destructured.
End Posted.
End Handler_branches.

(** ** The theorems at concrete inputs *)

Lemma handler_forwards_credentials_witness :
  exists text,
    @run ok_sink _ (handler scenario_webhook scenario_request) =
      ([EvFetch (env_value scenario_webhook) (webhook_init (Some text));
        EvRespond 200 (message (lit "Log received successfully."))], Normal tt) /\
    infix (field_text username_label (Some (quote (fence (lit "a@b.com")))) false) text /\
    infix (field_text password_label (Some (quote (fence (lit "p1")))) false) text.
Proof. eapply (@handler_forwards_credentials ok_sink); reflexivity. Defined.

Lemma handler_method_not_allowed_witness :
  @run ok_sink _ (handler scenario_webhook get_request) =
    ([EvRespond 405 (message (lit "Method Not Allowed"))], Normal tt).
Proof. apply (@handler_method_not_allowed ok_sink). reflexivity. Defined.

Lemma handler_validation_error_witness :
  @run ok_sink _ (handler scenario_webhook empty_password_request) =
    ([EvRespond 400 (message (lit "Username and password are required."))], Normal tt).
Proof. eapply (@handler_validation_error ok_sink); [reflexivity..|right; reflexivity]. Defined.

Lemma handler_config_error_witness :
  @run ok_sink _ (handler None scenario_request) =
    ([EvConsoleError
        [LogString (lit "DISCORD_WEBHOOK_URL is not set in environment variables.")];
      EvRespond 500 (message (lit "Server configuration error."))], Normal tt).
Proof. eapply (@handler_config_error ok_sink); reflexivity. Defined.

Lemma handler_forward_failed_witness :
  @run rejecting_sink _ (handler scenario_webhook scenario_request) =
    ([EvFetch (env_value scenario_webhook)
        (webhook_init (stringify (payload_object (lit "a@b.com") (lit "p1")
                                    (JString (lit "2024-01-01T00:00:00Z")) (lit "UA/1"))));
      EvReadText {| resp_status := 400; resp_body := [] |};
      EvConsoleError [LogString (lit "Failed to send to Discord:");
                      LogNumber 400; LogString (lit "Invalid Form Body")];
      EvRespond 500 (message (lit "Failed to log data."))], Normal tt).
Proof. eapply (@handler_forward_failed rejecting_sink); reflexivity. Defined.

Lemma handler_fetch_rejected_witness :
  @run unreachable_sink _ (handler scenario_webhook scenario_request) =
    (EvFetch (env_value scenario_webhook)
       (webhook_init (stringify (payload_object (lit "a@b.com") (lit "p1")
                                   (JString (lit "2024-01-01T00:00:00Z")) (lit "UA/1"))))
     :: internal_error_trace network_error, Normal tt).
Proof. eapply (@handler_fetch_rejected unreachable_sink); reflexivity. Defined.

Lemma handler_text_rejected_witness :
  @run broken_stream_sink _ (handler scenario_webhook scenario_request) =
    (EvFetch (env_value scenario_webhook)
       (webhook_init (stringify (payload_object (lit "a@b.com") (lit "p1")
                                   (JString (lit "2024-01-01T00:00:00Z")) (lit "UA/1"))))
     :: EvReadText {| resp_status := 502; resp_body := [] |}
     :: internal_error_trace (HostError (lit "TypeError") (lit "terminated")), Normal tt).
Proof. eapply (@handler_text_rejected broken_stream_sink); reflexivity. Defined.

Lemma handler_payload_error_witness :
  @run ok_sink _ (handler scenario_webhook object_username_request) =
    (internal_error_trace (TypeError (lit "Cannot convert object to primitive value")),
     Normal tt).
Proof. eapply (@handler_payload_error ok_sink); reflexivity. Defined.

Lemma handler_body_error_witness :
  @run ok_sink _ (handler scenario_webhook unparsable_request) =
    (internal_error_trace (HostError (lit "SyntaxError") (lit "Invalid JSON")), Normal tt).
Proof. eapply (@handler_body_error ok_sink); reflexivity. Defined.

End Handler.
