(* ===== verification/Contract.v ===== *)
(** The contract of spec.md, section 4.1 and the error taxonomy of
    section 4.1/7, and the refinement of that contract by [Handler].

    - [outcome] is the spec's taxonomy: MethodNotAllowed (405),
      ValidationError (400), ServerConfigurationError (500),
      ForwardingFailed (500), InternalError (500), and success (200);
    - [shape] is what the spec allows a request to do, outcome by
      outcome: at most one outbound call, at most one log line, exactly
      one response and it comes last;
    - [handler_outcome] is the decision [handler] takes, read off the
      code in its order; [spec_outcome] is the decision of section 4.1
      in the spec's order (configuration checked at step 3, before the
      payload of step 4 is built);
    - the theorems: every run of the handler has the shape of its
      outcome and completes; the two decisions agree except when the
      payload cannot be built and the webhook is not configured; the
      response never depends on the text of a failed downstream answer;
      an outbound call comes only from the validated, configured path,
      with the payload of that request, and its UTF-8 bytes decode back
      to its JSON text. *)

From Stdlib Require Import ZArith Lia String.
From stdpp Require Import base list decidable.
From S2P Require Import Prelude JsString JsValue Json Utf8 Payload Effects Handler.

Module Contract.
Import JsString JsValue Json Utf8 Payload Effects Handler.
Local Open Scope Z_scope.

Inductive outcome : Type :=
| MethodNotAllowed
| ValidationError
| ServerConfigurationError
| ForwardingFailed
| InternalError
| Success.

#[export] Instance outcome_eq_dec : EqDecision outcome.
Proof. solve_decision. Defined.

Definition status_of (o : outcome) : Z :=
  match o with
  | MethodNotAllowed => 405
  | ValidationError => 400
  | Success => 200
  | ServerConfigurationError | ForwardingFailed | InternalError => 500
  end.

(** The public messages of lines 7, 15, 58, 77, 82 and 87. *)
Definition public_message (o : outcome) : jsstring :=
  match o with
  | MethodNotAllowed => lit "Method Not Allowed"
  | ValidationError => lit "Username and password are required."
  | ServerConfigurationError => lit "Server configuration error."
  | ForwardingFailed => lit "Failed to log data."
  | InternalError => lit "An internal server error occurred."
  | Success => lit "Log received successfully."
  end.

Definition response_event (o : outcome) : event :=
  EvRespond (status_of o) (message (public_message o)).

(** What section 4.1 allows a request to do, by outcome.  Side effects:
    one log line on configuration error, outbound failure or exception;
    one outbound call on the paths that reach step 5; one response. *)
Inductive shape : outcome -> list event -> Prop :=
| shape_method : shape MethodNotAllowed [response_event MethodNotAllowed]
| shape_validation : shape ValidationError [response_event ValidationError]
| shape_config args :
    shape ServerConfigurationError [EvConsoleError args; response_event ServerConfigurationError]
| shape_internal_early args :
    shape InternalError [EvConsoleError args; response_event InternalError]
| shape_success url init : shape Success [EvFetch url init; response_event Success]
| shape_forward_failed url init r args :
    shape ForwardingFailed
      [EvFetch url init; EvReadText r; EvConsoleError args; response_event ForwardingFailed]
| shape_internal_fetch url init args :
    shape InternalError [EvFetch url init; EvConsoleError args; response_event InternalError]
| shape_internal_text url init r args :
    shape InternalError [EvFetch url init; EvReadText r; EvConsoleError args; response_event InternalError].

Definition is_respond (ev : event) : bool :=
  if ev is EvRespond _ _ then true else false.

Definition is_fetch (ev : event) : bool :=
  if ev is EvFetch _ _ then true else false.

(** Number of outbound calls in a trace. *)
Definition fetch_count (t : list event) : nat := length (filter is_fetch t).

(** The outcomes on which section 4.1 forbids an outbound call. *)
Definition before_delivery (o : outcome) : bool :=
  match o with
  | MethodNotAllowed | ValidationError | ServerConfigurationError => true
  | _ => false
  end.

Section Decisions.
Context `{Sink}.

(** The outcome of the outbound call (steps 5-7). *)
Definition delivery_outcome (url : jsval) (pl : jsval) : outcome :=
  match sink_fetch url (webhook_init (stringify pl)) with
  | Abrupt _ => InternalError
  | Normal r =>
      if resp_ok r then Success
      else match sink_text r with
           | Normal _ => ForwardingFailed
           | Abrupt _ => InternalError
           end
  end.

(** The decision of [handler], in the order of the code: the payload
    (line 19) is built before the configuration is read (line 52). *)
Definition handler_outcome (webhook : option jsstring) (req : request) : outcome :=
  if negb (strict_eqb (req_method req) (lit "POST")) then MethodNotAllowed else
  match req_body req with
  | Abrupt _ => InternalError
  | Normal body =>
      match destructure body with
      | Abrupt _ => InternalError
      | Normal (username, password, userAgent, timestamp) =>
          if negb (to_boolean username) || negb (to_boolean password) then ValidationError
          else match discord_payload username password userAgent timestamp with
               | Abrupt _ => InternalError
               | Normal pl =>
                   if negb (to_boolean (env_value webhook)) then ServerConfigurationError
                   else delivery_outcome (env_value webhook) pl
               end
      end
  end.

(** The decision of spec.md section 4.1, in its order: method (step
    1), validation (step 2), configuration (step 3), payload (step 4),
    delivery (steps 5-7); an exception at any step is step 8. *)
Definition spec_outcome (webhook : option jsstring) (req : request) : outcome :=
  if negb (strict_eqb (req_method req) (lit "POST")) then MethodNotAllowed else
  match req_body req with
  | Abrupt _ => InternalError
  | Normal body =>
      match destructure body with
      | Abrupt _ => InternalError
      | Normal (username, password, userAgent, timestamp) =>
          if negb (to_boolean username) || negb (to_boolean password) then ValidationError
          else if negb (to_boolean (env_value webhook)) then ServerConfigurationError
          else match discord_payload username password userAgent timestamp with
               | Abrupt _ => InternalError
               | Normal pl => delivery_outcome (env_value webhook) pl
               end
      end
  end.
End Decisions.

(** The one case where the two orders part: a POST whose credentials
    pass the check of line 14, whose payload throws, with no webhook
    configured. *)
Definition payload_fails_unconfigured (webhook : option jsstring) (req : request) : bool :=
  strict_eqb (req_method req) (lit "POST") &&
  match req_body req with
  | Abrupt _ => false
  | Normal body =>
      match destructure body with
      | Abrupt _ => false
      | Normal (username, password, userAgent, timestamp) =>
          to_boolean username && to_boolean password &&
          match discord_payload username password userAgent timestamp with
          | Abrupt _ => negb (to_boolean (env_value webhook))
          | Normal _ => false
          end
      end
  end.

(** An endpoint that answers every call with a 500 and [text]. *)
Definition failing_sink (text : jsstring) : Sink := fixed_sink 500 (Normal text).

(** ** Every run has the shape of its outcome *)

(** Closes a branch whose run is computed: the run completes and its
    trace is one of the shapes. *)
Ltac close_branch :=
  run_step; unfold handler_catch, console_error, respond; run_step;
  split; [reflexivity | econstructor].

(** The case split of [handler] along the conditions of the code, in
    source order: method, body, destructuring, validation, payload,
    configuration, outbound call, status and error text.  Each leaf is
    one path through lines 4-88. *)
Ltac split_handler webhook req :=
  unfold handler;
  destruct (strict_eqb (req_method req) (lit "POST")) eqn:?; cbn [negb];
  [rewrite run_try_catch, run_handler_try;
   destruct (req_body req) as [body|e] eqn:?;
   [destruct (destructure body) as [[[[u p] ua] ts]|e] eqn:?;
    [destruct (negb (to_boolean u) || negb (to_boolean p)) eqn:?;
     [idtac
     |rewrite run_forward;
      destruct (discord_payload u p ua ts) as [pl|e] eqn:?;
      [destruct (to_boolean (env_value webhook)) eqn:?; cbn [negb];
       [destruct (sink_fetch _ _) as [r|e] eqn:?;
        [unfold after_fetch; destruct (resp_ok r) eqn:?; cbn [negb];
         [idtac|unfold await_text; run_step; destruct (sink_text r) eqn:?]
        |idtac]
       |idtac]
      |idtac]]
    |idtac]
   |idtac]
  |idtac].

(** The case split shared by [payload_fails_unconfigured],
    [handler_outcome] and [spec_outcome]. *)
Ltac split_decisions webhook req :=
  unfold payload_fails_unconfigured, handler_outcome, spec_outcome;
  destruct (strict_eqb (req_method req) (lit "POST")); cbn [negb andb];
  try (destruct (req_body req) as [body|];
       try (destruct (destructure body) as [[[[u p] ua] ts]|];
            try (destruct (to_boolean u), (to_boolean p); cbn [negb orb andb];
                 try (destruct (discord_payload u p ua ts),
                        (to_boolean (env_value webhook)); cbn [negb andb])))).

Section Shape.
Context `{Sink}.

(** The events of every request are those section 4.1 allows for the
    outcome the handler decides, and the run completes normally. *)
Lemma run_handler_shape webhook req :
  snd (run (handler webhook req)) = Normal tt /\
  shape (handler_outcome webhook req) (fst (run (handler webhook req))).
Proof.
  unfold handler_outcome, delivery_outcome. split_handler webhook req; close_branch.
Qed.
(** C3: The handler never lets an exception escape: whatever the request,
    the configuration and the endpoint's answers, its promise resolves
    (the [catch] block of lines 84-88 answers every exception). *)
Theorem handler_completes webhook req : snd (run (handler webhook req)) = Normal tt.
Proof. apply run_handler_shape. Qed.
End Shape.

(** ** Consequences of the shapes *)

Lemma shape_last o t :
  shape o t -> exists pre, t = pre ++ [response_event o] /\ Forall (fun ev => is_respond ev = false) pre.
Proof.
  destruct 1;
    match goal with |- exists pre, ?t = _ /\ _ => exists (removelast t) end;
    split; [reflexivity| |reflexivity| |reflexivity| |reflexivity| |reflexivity| |
            reflexivity| |reflexivity| |reflexivity| ]; repeat constructor.
Qed.

Lemma shape_fetch_count o t :
  shape o t -> (fetch_count t <= 1)%nat /\ (before_delivery o = true -> fetch_count t = 0%nat).
Proof. destruct 1; cbv; split; (lia || discriminate). Qed.

Section Consequences.
Context `{Sink}.

(** C4: Exactly one response is sent, and it is the last thing the
    handler does: its status and message are those of the outcome. *)
Theorem handler_responds_once webhook req :
  exists pre,
    fst (run (handler webhook req)) = pre ++ [response_event (handler_outcome webhook req)] /\
    Forall (fun ev => is_respond ev = false) pre.
Proof. apply shape_last, run_handler_shape. Qed.

(** C6: At most one outbound call, and none when the method, the
    credentials or the configuration stop the request. *)
Theorem handler_outbound_calls webhook req :
  (fetch_count (fst (run (handler webhook req))) <= 1)%nat /\
  (before_delivery (handler_outcome webhook req) = true ->
   fetch_count (fst (run (handler webhook req))) = 0%nat).
Proof. apply shape_fetch_count, run_handler_shape. Qed.
End Consequences.

(** ** Provenance and bytes of the outbound call *)

Section Outbound.
Context `{Sink}.

(** Where an outbound call can come from: the one path of lines 5-66
    that reaches line 61. *)
Lemma run_handler_fetch webhook req url init :
  EvFetch url init ∈ fst (run (handler webhook req)) ->
  exists body username password userAgent timestamp pl,
    strict_eqb (req_method req) (lit "POST") = true /\
    req_body req = Normal body /\
    destructure body = Normal (username, password, userAgent, timestamp) /\
    to_boolean username = true /\ to_boolean password = true /\
    discord_payload username password userAgent timestamp = Normal pl /\
    to_boolean (env_value webhook) = true /\
    url = env_value webhook /\ init = webhook_init (stringify pl).
Proof.
  split_handler webhook req; run_step;
    unfold handler_catch, console_error, respond; run_step; intros Hin;
    repeat match goal with
      | H : _ ∈ _ :: _ |- _ => apply elem_of_cons in H as [H|H]
      | H : _ ∈ [] |- _ => by apply elem_of_nil in H
      | H : EvFetch _ _ = EvFetch _ _ |- _ => injection H as -> ->
      | H : EvFetch _ _ = _ |- _ => discriminate H
      | H : (_ || _) = false |- _ => apply orb_false_iff in H as [? ?]
      | H : negb _ = false |- _ => apply negb_false_iff in H
    end.
  all: do 6 eexists; repeat split; eassumption || reflexivity.
Qed.

(** C20: An outbound call happens only for a POST whose body
    destructures to a truthy username and password, with a configured
    URL; it goes to that URL, and its body is the JSON text of the
    payload built from the three converted fields of that very body and
    its raw timestamp. *)
Theorem handler_fetch_provenance webhook req url init :
  EvFetch url init ∈ fst (run (handler webhook req)) ->
  exists body username password userAgent timestamp u p ua,
    strict_eqb (req_method req) (lit "POST") = true /\
    req_body req = Normal body /\
    destructure body = Normal (username, password, userAgent, timestamp) /\
    to_boolean username = true /\ to_boolean password = true /\
    to_string username = Normal u /\ to_string password = Normal p /\
    to_string userAgent = Normal ua /\
    to_boolean (env_value webhook) = true /\
    url = env_value webhook /\
    init = webhook_init (stringify (payload_object u p timestamp ua)).
Proof.
  intros Hin.
  destruct (run_handler_fetch _ _ _ _ Hin)
    as (body & username & password & userAgent & timestamp & pl & Hm & Hb & Hd & Hu & Hp & Hpl & Hw & -> & ->).
  destruct (discord_payload_inv _ _ _ _ _ Hpl) as (u & p & ua & Eu & Ep & Eua & ->).
  exists body, username, password, userAgent, timestamp, u, p, ua. tauto.
Qed.

(** C21: For a body whose strings are well formed, every outbound call
    carries a body, and the UTF-8 bytes [fetch] sends for it decode back
    to exactly that text: the webhook receives the JSON text unchanged. *)
Theorem handler_outbound_bytes webhook req body url init :
  req_body req = Normal body -> wf_value body ->
  EvFetch url init ∈ fst (run (handler webhook req)) ->
  exists text, init_body init = Some text /\
    option_map from_code_points (utf8_decode (utf8_encode text)) = Some text.
Proof.
  intros Hb Hwf Hin.
  destruct (run_handler_fetch _ _ _ _ Hin)
    as (body' & username & password & userAgent & timestamp & pl & _ & Hb' & Hd & _ & _ & Hpl & _ & _ & ->).
  rewrite Hb in Hb'. invc Hb'.
  destruct (destructure_wf _ _ _ _ _ Hwf Hd) as (Hu & Hp & Hua & Hts).
  destruct (discord_payload_wire _ _ _ _ _ Hu Hp Hua Hts Hpl) as (text & Ht & Hrt).
  exists text. simpl. rewrite Ht. auto.
Qed.

End Outbound.

(** ** Refinement of the decision of section 4.1 *)

Section Refinement.
Context `{Sink}.

(** In the case where the orders part, the code decides InternalError
    and the spec ServerConfigurationError. *)
Lemma divergent_outcomes webhook req :
  payload_fails_unconfigured webhook req = true ->
  handler_outcome webhook req = InternalError /\
  spec_outcome webhook req = ServerConfigurationError.
Proof. split_decisions webhook req; intros Hd; first [discriminate Hd | split; reflexivity]. Qed.

(** Two outcomes whose shapes share a trace are equal: the last event is
    the response, and the responses of distinct outcomes differ. *)
Lemma shape_outcome_unique o1 o2 t : shape o1 t -> shape o2 t -> o1 = o2.
Proof.
  intros H1 H2.
  destruct (shape_last _ _ H1) as (pre1 & E1 & _), (shape_last _ _ H2) as (pre2 & E2 & _).
  rewrite E1 in E2. apply app_inj_tail in E2 as [_ Hr].
  destruct o1, o2; try reflexivity; vm_compute in Hr; congruence.
Qed.

(** C12: The handler decides exactly as section 4.1 says, except on the
    requests of [payload_fails_unconfigured]: there the spec checks the
    configuration first and answers ServerConfigurationError, and the
    code builds the payload first and answers InternalError. *)
Theorem handler_outcome_vs_spec webhook req :
  if payload_fails_unconfigured webhook req
  then handler_outcome webhook req = InternalError /\
       spec_outcome webhook req = ServerConfigurationError
  else handler_outcome webhook req = spec_outcome webhook req.
Proof.
  destruct (payload_fails_unconfigured webhook req) eqn:Hd;
    [by apply divergent_outcomes|].
  revert Hd. split_decisions webhook req; intros Hd; first [discriminate Hd | reflexivity].
Qed.


Lemma spec_outcome_configured webhook req :
  to_boolean (env_value webhook) = true -> handler_outcome webhook req = spec_outcome webhook req.
Proof.
  intros Hw. unfold handler_outcome, spec_outcome. rewrite Hw. cbn [negb].
  repeat case_match; reflexivity.
Qed.

(** C2: Refinement: with the webhook configured, every run of the handler
    completes and does what section 4.1 prescribes for the outcome the
    spec decides. *)
Theorem handler_refines_spec webhook req :
  to_boolean (env_value webhook) = true ->
  snd (run (handler webhook req)) = Normal tt /\
  shape (spec_outcome webhook req) (fst (run (handler webhook req))).
Proof.
  intros Hw. rewrite <- spec_outcome_configured by exact Hw. apply run_handler_shape.
Qed.
(** C19: On every request where the orders part, the run of the handler
    is an InternalError run (a log line and the generic 500), which the
    contract of section 4.1 does not allow for the outcome it decides. *)
Theorem config_check_order_divergence webhook req :
  payload_fails_unconfigured webhook req = true ->
  spec_outcome webhook req = ServerConfigurationError /\
  shape InternalError (fst (run (handler webhook req))) /\
  ~ shape (spec_outcome webhook req) (fst (run (handler webhook req))).
Proof.
  intros Hd. destruct (divergent_outcomes _ _ Hd) as [Hh Hs].
  destruct (run_handler_shape webhook req) as [_ Hsh]. rewrite Hh in Hsh.
  split; [exact Hs|]. split; [exact Hsh|].
  rewrite Hs. intros Hc. pose proof (shape_outcome_unique _ _ _ Hsh Hc). discriminate.
Qed.
End Refinement.

(** ** The response does not depend on the downstream error text *)

Section Noninterference.
Context (S1 S2 : Sink).
Hypothesis same_fetch : forall url init,
  @sink_fetch S1 url init = @sink_fetch S2 url init.
Hypothesis same_text_outcome : forall r,
  (exists t, @sink_text S1 r = Normal t) <-> (exists t, @sink_text S2 r = Normal t).

Lemma delivery_outcome_indep url pl :
  @delivery_outcome S1 url pl = @delivery_outcome S2 url pl.
Proof.
  unfold delivery_outcome. rewrite same_fetch.
  destruct (@sink_fetch S2 _ _) as [r|]; [|done]. destruct (resp_ok r); [done|].
  pose proof (same_text_outcome r) as Hr.
  destruct (@sink_text S1 r), (@sink_text S2 r); try done; exfalso.
  - destruct (proj1 Hr (ex_intro _ _ eq_refl)); discriminate.
  - destruct (proj2 Hr (ex_intro _ _ eq_refl)); discriminate.
Qed.

Lemma handler_outcome_indep webhook req :
  @handler_outcome S1 webhook req = @handler_outcome S2 webhook req.
Proof.
  unfold handler_outcome. repeat case_match; auto using delivery_outcome_indep.
Qed.

(** C5: Two endpoints that answer the outbound call alike and whose error
    bodies are readable alike get the same response to the caller,
    whatever the text of those error bodies: the downstream error
    detail never reaches the response. *)
Theorem response_independent_of_error_text webhook req :
  exists o pre1 pre2,
    fst (@run S1 _ (handler webhook req)) = pre1 ++ [response_event o] /\
    fst (@run S2 _ (handler webhook req)) = pre2 ++ [response_event o].
Proof.
  destruct (shape_last _ _ (proj2 (@run_handler_shape S1 webhook req))) as (pre1 & E1 & _).
  destruct (shape_last _ _ (proj2 (@run_handler_shape S2 webhook req))) as (pre2 & E2 & _).
  rewrite handler_outcome_indep in E1. eauto.
Qed.
End Noninterference.

(** ** The theorems at concrete inputs *)

Lemma handler_refines_spec_witness :
  snd (@run ok_sink _ (handler scenario_webhook scenario_request)) = Normal tt /\
  shape (@spec_outcome ok_sink scenario_webhook scenario_request)
    (fst (@run ok_sink _ (handler scenario_webhook scenario_request))).
Proof. apply (@handler_refines_spec ok_sink). reflexivity. Defined.



Lemma response_independent_of_error_text_witness :
  exists o pre1 pre2,
    fst (@run (failing_sink (lit "first detail")) _ (handler scenario_webhook scenario_request))
      = pre1 ++ [response_event o] /\
    fst (@run (failing_sink (lit "second detail")) _ (handler scenario_webhook scenario_request))
      = pre2 ++ [response_event o].
Proof.
  apply response_independent_of_error_text; [reflexivity|].
  intros r. split; intros _; eexists; reflexivity.
Defined.

Lemma handler_fetch_provenance_witness :
  EvFetch (env_value scenario_webhook)
    (webhook_init (stringify (payload_object (lit "a@b.com") (lit "p1")
                                (JString (lit "2024-01-01T00:00:00Z")) (lit "UA/1"))))
    ∈ fst (@run ok_sink _ (handler scenario_webhook scenario_request)) /\
  exists body username password userAgent timestamp u p ua,
    strict_eqb (req_method scenario_request) (lit "POST") = true /\
    req_body scenario_request = Normal body /\
    destructure body = Normal (username, password, userAgent, timestamp) /\
    to_boolean username = true /\ to_boolean password = true /\
    to_string username = Normal u /\ to_string password = Normal p /\
    to_string userAgent = Normal ua /\
    to_boolean (env_value scenario_webhook) = true /\
    env_value scenario_webhook = env_value scenario_webhook /\
    webhook_init (stringify (payload_object (lit "a@b.com") (lit "p1")
                               (JString (lit "2024-01-01T00:00:00Z")) (lit "UA/1")))
    = webhook_init (stringify (payload_object u p timestamp ua)).
Proof.
  assert (Hin : EvFetch (env_value scenario_webhook)
    (webhook_init (stringify (payload_object (lit "a@b.com") (lit "p1")
                                (JString (lit "2024-01-01T00:00:00Z")) (lit "UA/1"))))
    ∈ fst (@run ok_sink _ (handler scenario_webhook scenario_request)))
    by (vm_compute; apply elem_of_cons; left; reflexivity).
  split; [exact Hin | exact (@handler_fetch_provenance ok_sink _ _ _ _ Hin)].
Defined.

Lemma handler_outbound_bytes_witness :
  exists text,
    init_body (webhook_init (stringify (payload_object (lit "a@b.com") (lit "p1")
                                (JString (lit "2024-01-01T00:00:00Z")) (lit "UA/1"))))
      = Some text /\
    option_map from_code_points (utf8_decode (utf8_encode text)) = Some text.
Proof.
  apply (@handler_outbound_bytes ok_sink scenario_webhook scenario_request scenario_body
           (env_value scenario_webhook)); [reflexivity| |].
  - unfold scenario_body, wf_value.
    repeat first [ apply all_object | apply all_string | apply Forall_nil
                 | apply Forall_cons | split | by_decide ].
  - vm_compute; apply elem_of_cons; left; reflexivity.
Defined.

Lemma config_check_order_divergence_witness :
  @payload_fails_unconfigured None object_username_request = true /\
  @spec_outcome ok_sink None object_username_request = ServerConfigurationError /\
  shape InternalError (fst (@run ok_sink _ (handler None object_username_request))) /\
  ~ shape (@spec_outcome ok_sink None object_username_request)
      (fst (@run ok_sink _ (handler None object_username_request))).
Proof.
  assert (Hd : payload_fails_unconfigured None object_username_request = true) by reflexivity.
  split; [exact Hd | exact (@config_check_order_divergence ok_sink None _ Hd)].
Defined.

End Contract.
